(** * batch_generator.py: synthetic batch generation and post-processing

    A shallow embedding of [Unidad_2/work/batch_generator.py].  The script
    is glue between the Python runtime ([str], [datetime], [random],
    [uuid], [csv], [os.path]) and two packages (Faker, polars).  The parts
    of the runtime whose behaviour the script's properties rest on are
    written out ([str.replace], [date.isoformat], the calendar arithmetic
    of [datetime - timedelta], [random.randint], the column operations of
    a polars DataFrame); the rest is an interface, [Runtime], with the
    contracts that are used stated as laws.

    The definitions come first: the runtime, the script, two small
    runtimes on which it all computes (one keeps a file as a table, the
    other as text), and the inputs of the examples.  The facts follow, and
    the properties of the specification, each under the identifier of its
    claim (C1, C2, ...); further properties of the script (X1, X2, ...)
    close the file. *)

From stdpp Require Import gmap strings list.
From Stdlib Require Import ZArith Lia Ascii.
From Stdlib Require DecimalString.

Local Open Scope Z_scope.

(** ** Python strings *)

Module PyStr.

(** [s.replace(old, new)] for a one-character [old]. *)
Fixpoint replace (old : ascii) (new : string) (s : string) : string :=
  match s with
  | EmptyString => EmptyString
  | String c s' =>
      if Ascii.eqb c old then new +:+ replace old new s'
      else String c (replace old new s')
  end.

(** [c in s] for a one-character [c]. *)
Fixpoint contains (c : ascii) (s : string) : bool :=
  match s with
  | EmptyString => false
  | String c' s' => Ascii.eqb c' c || contains c s'
  end.

(** [s.startswith(p)] *)
Definition startswith (p s : string) : bool := String.prefix p s.

(** [s.split(sep)[-1]] for a one-character [sep]: the text after the last
    separator, the whole string when there is none. *)
Fixpoint split_last_from (sep : ascii) (acc : string) (s : string) : string :=
  match s with
  | EmptyString => acc
  | String c s' =>
      if Ascii.eqb c sep then split_last_from sep EmptyString s'
      else split_last_from sep (acc +:+ String c EmptyString) s'
  end.

Definition split_last (sep : ascii) (s : string) : string :=
  split_last_from sep EmptyString s.

Definition space : ascii := Ascii.ascii_of_nat 32.
Definition newline : ascii := Ascii.ascii_of_nat 10.
Definition underscore : ascii := Ascii.ascii_of_nat 95.

(** One decimal digit, and the zero-padded fields of ["%04d-%02d-%02d"]. *)
Definition digit (k : Z) : ascii := Ascii.ascii_of_N (48 + Z.to_N k).

Definition pad2 (n : Z) : string :=
  String (digit (n / 10 mod 10)) (String (digit (n mod 10)) EmptyString).

Definition pad4 (n : Z) : string :=
  String (digit (n / 1000 mod 10)) (String (digit (n / 100 mod 10)) (pad2 n)).

Definition pad6 (n : Z) : string := pad2 (n / 10000) +:+ pad4 n.

End PyStr.

(** ** The datetime module *)

Module PyDatetime.

Record date := mkdate { year : Z; month : Z; day : Z }.

Record datetime := mkdatetime {
  dt_date : date;
  hour : Z; minute : Z; second : Z; microsecond : Z
}.

#[export] Instance date_eq_dec : EqDecision date.
Proof. solve_decision. Defined.

#[export] Instance datetime_eq_dec : EqDecision datetime.
Proof. solve_decision. Defined.

Definition MAXORDINAL : Z := 3652059.

Definition is_leap (y : Z) : bool :=
  (y mod 4 =? 0) && (negb (y mod 100 =? 0) || (y mod 400 =? 0)).

Definition days_before_year (y : Z) : Z :=
  let y := y - 1 in y * 365 + y / 4 - y / 100 + y / 400.

(** [_DAYS_IN_MONTH] and [_DAYS_BEFORE_MONTH], indexed from 1. *)
Definition DAYS_IN_MONTH (m : Z) : Z :=
  match m with
  | 1 => 31 | 2 => 28 | 3 => 31 | 4 => 30 | 5 => 31 | 6 => 30
  | 7 => 31 | 8 => 31 | 9 => 30 | 10 => 31 | 11 => 30 | 12 => 31
  | _ => -1
  end.

Definition DAYS_BEFORE_MONTH (m : Z) : Z :=
  match m with
  | 1 => 0 | 2 => 31 | 3 => 59 | 4 => 90 | 5 => 120 | 6 => 151
  | 7 => 181 | 8 => 212 | 9 => 243 | 10 => 273 | 11 => 304 | 12 => 334
  | _ => -1
  end.

Definition days_in_month (y m : Z) : Z :=
  if (m =? 2) && is_leap y then 29 else DAYS_IN_MONTH m.

Definition days_before_month (y m : Z) : Z :=
  DAYS_BEFORE_MONTH m + (if (2 <? m) && is_leap y then 1 else 0).

Definition ymd2ord (y m d : Z) : Z :=
  days_before_year y + days_before_month y m + d.

Definition DI400Y : Z := 146097.
Definition DI100Y : Z := 36524.
Definition DI4Y : Z := 1461.

Definition ord2ymd (n : Z) : date :=
  let n := n - 1 in
  let n400 := n / DI400Y in let n := n mod DI400Y in
  let y := n400 * 400 + 1 in
  let n100 := n / DI100Y in let n := n mod DI100Y in
  let n4 := n / DI4Y in let n := n mod DI4Y in
  let n1 := n / 365 in let n := n mod 365 in
  let y := y + n100 * 100 + n4 * 4 + n1 in
  if (n1 =? 4) || (n100 =? 4) then mkdate (y - 1) 12 31
  else
    let leapyear := (n1 =? 3) && (negb (n4 =? 24) || (n100 =? 3)) in
    let m := Z.shiftr (n + 50) 5 in
    let preceding :=
      DAYS_BEFORE_MONTH m + (if (2 <? m) && leapyear then 1 else 0) in
    if n <? preceding then
      let m := m - 1 in
      let preceding :=
        preceding
        - (DAYS_IN_MONTH m + (if (m =? 2) && leapyear then 1 else 0)) in
      mkdate y m (n - preceding + 1)
    else mkdate y m (n - preceding + 1).

Definition toordinal (d : date) : Z := ymd2ord (year d) (month d) (day d).

Definition fromordinal (n : Z) : date := ord2ymd n.

(** What the constructors of [date] and [datetime] check. *)
Definition valid_date (d : date) : Prop :=
  1 <= year d <= 9999 /\ 1 <= month d <= 12
  /\ 1 <= day d <= days_in_month (year d) (month d).

Definition valid_datetime (t : datetime) : Prop :=
  valid_date (dt_date t) /\ 0 <= hour t < 24 /\ 0 <= minute t < 60
  /\ 0 <= second t < 60 /\ 0 <= microsecond t < 1000000.

(** [str(d)], that is [d.isoformat()]. *)
Definition isoformat (d : date) : string :=
  PyStr.pad4 (year d) +:+ "-" +:+ PyStr.pad2 (month d) +:+ "-"
  +:+ PyStr.pad2 (day d).

(** [t.date()] and [t.replace(microsecond=0)]. *)
Definition replace_microsecond (t : datetime) (us : Z) : datetime :=
  mkdatetime (dt_date t) (hour t) (minute t) (second t) us.

(** [t - timedelta(days=n)]: the date goes through its ordinal, the time of
    day through its seconds, as [datetime.__add__] does; [None] is the
    [OverflowError] of a result outside years 1..9999. *)
Definition sub_days (t : datetime) (n : Z) : option datetime :=
  let days := toordinal (dt_date t) - n in
  let seconds := hour t * 3600 + minute t * 60 + second t in
  let h := seconds / 3600 in let rem := seconds mod 3600 in
  let m := rem / 60 in let s := rem mod 60 in
  if (0 <? days) && (days <=? MAXORDINAL)
  then Some (mkdatetime (fromordinal days) h m s (microsecond t))
  else None.

(** Position of a naive datetime on the proleptic Gregorian time line, in
    whole seconds since the start of day 0. *)
Definition seconds_of (t : datetime) : Z :=
  toordinal (dt_date t) * 86400 + hour t * 3600 + minute t * 60 + second t.


(** The month and day that [ord2ymd] computes from the 0-based day [n] of
    a year, as one pair, to check the table arithmetic by enumeration. *)
Definition month_day (leapyear : bool) (n : Z) : Z * Z :=
  let m := Z.shiftr (n + 50) 5 in
  let preceding :=
    DAYS_BEFORE_MONTH m + (if (2 <? m) && leapyear then 1 else 0) in
  if n <? preceding then
    let m := m - 1 in
    let preceding :=
      preceding
      - (DAYS_IN_MONTH m + (if (m =? 2) && leapyear then 1 else 0)) in
    (m, n - preceding + 1)
  else (m, n - preceding + 1).

Definition month_day_ok (leapyear : bool) (n : Z) : bool :=
  let '(m, d) := month_day leapyear n in
  (1 <=? m) && (m <=? 12) && (1 <=? d)
  && (DAYS_BEFORE_MONTH m + (if (2 <? m) && leapyear then 1 else 0) + d
      =? n + 1).

End PyDatetime.

(** ** Values *)

(** The Python objects a record holds and [csv.writer] receives. *)
Inductive pyval :=
| PStr (s : string)
| PInt (z : Z)
| PDate (d : PyDatetime.date)
| PDatetime (t : PyDatetime.datetime).

(** ** polars: frames and column operations *)

Module Polars.

(** A cell; a float is kept as its IEEE 754 bit pattern, the script does
    no arithmetic on cells. *)
Inductive value :=
| Null
| Boolean (b : bool)
| Int64 (z : Z)
| Float64 (bits : Z)
| Utf8 (s : string)
| Datetime (t : PyDatetime.datetime).

(** A frame is its named columns, in order; row [i] is made of the [i]-th
    cell of every column. *)
Definition DataFrame : Type := list (string * list value).

Definition columns (df : DataFrame) : list string := fst <$> df.

Definition height (df : DataFrame) : nat :=
  match df with
  | [] => 0%nat
  | (_, c) :: _ => length c
  end.

Fixpoint get_column (df : DataFrame) (name : string) : option (list value) :=
  match df with
  | [] => None
  | (n, c) :: df' => if decide (n = name) then Some c else get_column df' name
  end.

(** [with_columns] for one named column: a column of that name is replaced
    where it stands, a new name is appended as the last column. *)
Fixpoint set_column (name : string) (col : list value) (df : DataFrame)
  : DataFrame :=
  match df with
  | [] => [(name, col)]
  | (n, c) :: df' =>
      if decide (n = name) then (name, col) :: df'
      else (n, c) :: set_column name col df'
  end.

(** [df.with_columns(pl.Series(name, values))]; [None] is the ShapeError
    of a column whose length is not the frame's height. *)
Definition with_columns_series (df : DataFrame) (name : string)
    (values : list value) : option DataFrame :=
  if decide (df = [] \/ length values = height df)
  then Some (set_column name values df)
  else None.

(** [df.with_columns(pl.lit(v).alias(name))]: the literal is broadcast to
    the frame's height (one row for a frame without columns). *)
Definition with_columns_lit (df : DataFrame) (name : string) (v : value)
  : DataFrame :=
  set_column name (replicate (if decide (df = []) then 1%nat else height df) v)
    df.

(** The invariant of a frame that was read from a file: at least one
    column, distinct names, columns of one length. *)
Definition wf (df : DataFrame) : Prop :=
  df <> [] /\ NoDup (columns df)
  /\ Forall (fun nc : string * list value => length nc.2 = height df) df.

End Polars.

(** ** The runtime interface *)

Import PyDatetime Polars.

Class Runtime := {
  (** contents of a file *)
  bytes : Type;
  (** [csv]: the empty file of [open(path, "w")], and [writer.writerow] *)
  csv_empty : bytes;
  csv_writerow : bytes -> list pyval -> bytes;
  (** polars: parsing and printing a frame; [None] is a read error *)
  read_csv : bytes -> option DataFrame;
  write_csv : DataFrame -> bytes;
  (** [str.lower], which needs the Unicode case tables *)
  str_lower : string -> string;
  (** [os.path.dirname] *)
  dirname : string -> string;
  (** [random]: the generator's state, and [_randbelow(n)] *)
  RandomState : Type;
  randbelow : Z -> RandomState -> Z * RandomState;
  (** [uuid]: the entropy of the operating system, and [str(uuid4())] *)
  Urandom : Type;
  uuid4 : Urandom -> string * Urandom;
  (** Faker: an instance, its constructor and the providers called.  The
      constructor fails on a locale Faker does not know; "es_MX" is one
      it knows.  [date_of_birth] and [date_time_between] read the clock:
      they are given the readings the clock gives from now on and return,
      with their value, how many of them they took. *)
  Faker : Type;
  Faker_new : string -> Urandom -> option Faker * Urandom;
  Faker_new_es_MX : forall u, is_Some (Faker_new "es_MX" u).1;
  fake_name : Faker -> string * Faker;
  fake_free_email_domain : Faker -> string * Faker;
  fake_ssn : Faker -> string * Faker;
  fake_date_of_birth : Faker -> (nat -> datetime) -> (date * Faker) * nat;
  fake_address : Faker -> string * Faker;
  fake_phone_number : Faker -> string * Faker;
  fake_mac_address : Faker -> string * Faker;
  fake_ipv4 : Faker -> string * Faker;
  fake_iban : Faker -> string * Faker;
  fake_date_time_between :
    string -> Faker -> (nat -> datetime) -> (datetime * Faker) * nat
}.

(** The file [csv.writer] produces from a list of rows. *)
Definition csv_of `{Runtime} (rows : list (list pyval)) : bytes :=
  fold_left csv_writerow rows csv_empty.

(** *** Contracts of the runtime *)

(** [_randbelow(n)] returns an integer in [[0, n)]. *)
Class RandomLaws (R : Runtime) : Prop :=
  randbelow_range : forall n g, 0 < n -> 0 <= (randbelow n g).1 < n.

(** Lowercasing produces no space character. *)
Class LowerLaws (R : Runtime) : Prop :=
  str_lower_space : forall s,
    PyStr.contains PyStr.space s = false ->
    PyStr.contains PyStr.space (str_lower s) = false.

(** polars and [csv] agree on the shape of a table: a frame that was read
    is well formed; a header of distinct names followed by rows of the
    header's length, within the rows polars inspects to infer a schema,
    reads as a frame of these columns and that many rows; and a
    well-formed frame that was written reads back with its column names
    and its height. *)
Definition INFER_SCHEMA_LENGTH : nat := 100.

Class CsvLaws (R : Runtime) : Prop := {
  read_csv_wf : forall b df, read_csv b = Some df -> wf df;
  read_csv_writer : forall (header : list string) (rows : list (list pyval)),
    header <> [] -> NoDup header ->
    Forall (fun r => length r = length header) rows ->
    (length rows <= INFER_SCHEMA_LENGTH)%nat ->
    exists df, read_csv (csv_of ((PStr <$> header) :: rows)) = Some df
               /\ columns df = header /\ height df = length rows;
  read_csv_write_csv : forall df, wf df ->
    exists df', read_csv (write_csv df) = Some df'
                /\ columns df' = columns df /\ height df' = height df
}.

(** The same agreement, asked of written frames only within the rows
    polars inspects: beyond them a column that began with numerals may
    fail to read. *)
Class CsvShapeLaws (R : Runtime) : Prop := {
  shape_read_csv_wf : forall b df, read_csv b = Some df -> wf df;
  shape_read_csv_writer :
    forall (header : list string) (rows : list (list pyval)),
    header <> [] -> NoDup header ->
    Forall (fun r => length r = length header) rows ->
    (length rows <= INFER_SCHEMA_LENGTH)%nat ->
    exists df, read_csv (csv_of ((PStr <$> header) :: rows)) = Some df
               /\ columns df = header /\ height df = length rows;
  shape_read_csv_write_csv : forall df, wf df ->
    (height df <= INFER_SCHEMA_LENGTH)%nat ->
    exists df', read_csv (write_csv df) = Some df'
                /\ columns df' = columns df /\ height df' = height df
}.

(** ** The world the script runs in *)

Inductive log_record :=
| LogCreatedDirectory (directory : string)
| LogCreatedData (country : string)
| LogWritten (rows : Z)
| LogAddedUUID
| LogUpdatedTimestamp
| LogNoTimestampUpdate
| LogStarted (today : date)
| LogFinished (today : date).

(** What the script does to its environment, in order. *)
Inductive event :=
| EvLog (m : log_record)
| EvMakedirs (directory : string)
| EvOpen (path : string)
| EvRead (path : string)
| EvWrite (path : string).

(** The exceptions that can be raised: a missing file and a file polars
    cannot parse, a column of the wrong length, a date before year 1, an
    empty range of [randint], a locale Faker does not know. *)
Inductive exn :=
| FileNotFoundError (path : string)
| ReadError (path : string)
| ShapeError
| OverflowError
| ValueError
| AttributeError.

Inductive result (A : Type) :=
| Ok (a : A)
| Raise (e : exn).
Arguments Ok {A} a.
Arguments Raise {A} e.

Section Script.
Context `{R : Runtime}.

(** Files by path, the directories that exist, the state of the [random]
    module, the entropy of the system, the local clock as the sequence of
    its readings with the number of readings taken, and the trace.  Any
    path can be opened for writing and any directory made: the failures
    of an operating system (permissions, a full disk, a regular file
    standing where a directory is needed) are outside the model. *)
Record World := mkWorld {
  fs : gmap string bytes;
  dirs : gset string;
  random : RandomState;
  urandom : Urandom;
  clock : nat -> datetime;
  ticks : nat;
  trace : list event
}.

(** A computation changes the world and returns or raises. *)
Definition M (A : Type) : Type := World -> result A * World.

#[export] Instance M_ret : MRet M := fun A a w => (Ok a, w).

#[export] Instance M_bind : MBind M := fun A B f m w =>
  match m w with
  | (Ok a, w') => f a w'
  | (Raise e, w') => (Raise e, w')
  end.

Definition raise {A} (e : exn) : M A := fun w => (Raise e, w).

Definition emit (e : event) : M unit := fun w =>
  (Ok tt, mkWorld (fs w) (dirs w) (random w) (urandom w) (clock w) (ticks w)
            (trace w ++ [e])).

Definition set_fs (f : gmap string bytes -> gmap string bytes) : M unit :=
  fun w =>
  (Ok tt, mkWorld (f (fs w)) (dirs w) (random w) (urandom w) (clock w)
            (ticks w) (trace w)).

(** [logging.info] *)
Definition logging_info (m : log_record) : M unit := emit (EvLog m).

(** [datetime.now()] and [date.today()] read the local clock. *)
Definition datetime_now : M datetime := fun w =>
  (Ok (clock w (ticks w)),
   mkWorld (fs w) (dirs w) (random w) (urandom w) (clock w) (S (ticks w))
     (trace w)).

Definition date_today : M date := t ← datetime_now; mret (dt_date t).

(** A library routine that reads the clock: it is given the readings to
    come and says how many it took. *)
Definition with_clock {A} (f : (nat -> datetime) -> A * nat) : M A := fun w =>
  let '(a, n) := f (fun i => clock w (ticks w + i)%nat) in
  (Ok a,
   mkWorld (fs w) (dirs w) (random w) (urandom w) (clock w) (ticks w + n)%nat
     (trace w)).

(** [os.path.exists]: something is there, a directory or a file. *)
Definition path_exists (w : World) (p : string) : bool :=
  bool_decide (p ∈ dirs w \/ is_Some (fs w !! p)).

Definition os_path_exists (p : string) : M bool := fun w =>
  (Ok (path_exists w p), w).

(** The directories [os.makedirs(name)] makes, the outermost first: it
    calls itself on the parent of [name] when there is one and nothing
    stands there, then makes [name].  ([name] is the [dirname] of a path
    here: it does not end in a separator, unless it is a root, which is
    its own parent.) *)
Fixpoint makedirs_made (fuel : nat) (there : string -> bool) (name : string)
  : list string :=
  match fuel with
  | O => [name]
  | S fuel' =>
      let head := dirname name in
      if negb (String.eqb head "") && negb (String.eqb head name)
         && negb (there head)
      then makedirs_made fuel' there head ++ [name]
      else [name]
  end.

(** [os.makedirs(directory, exist_ok=True)].  The real call raises when a
    regular file stands at [directory] or at the ancestor below which it
    is to make directories; like every failure of the operating system,
    that is outside the model. *)
Definition os_makedirs (directory : string) : M unit := fun w =>
  (Ok tt,
   mkWorld (fs w)
     (list_to_set
        (makedirs_made (String.length directory) (path_exists w) directory)
      ∪ dirs w)
     (random w) (urandom w) (clock w) (ticks w)
     (trace w ++ [EvMakedirs directory])).

(** [open(path, "w")] truncates the file; [writer.writerow] adds a row to
    it. *)
Definition open_w (path : string) : M unit :=
  set_fs (insert path csv_empty);; emit (EvOpen path).

Definition writer_writerow (path : string) (r : list pyval) : M unit :=
  set_fs (alter (fun b => csv_writerow b r) path).

(** [random.randint(a, b)] is [randrange(a, b + 1)]: [a] plus a number
    below the width, [ValueError] on an empty range. *)
Definition random_randint (a b : Z) : M Z := fun w =>
  let width := b + 1 - a in
  if 0 <? width then
    let '(r, g) := randbelow width (random w) in
    (Ok (a + r),
     mkWorld (fs w) (dirs w) g (urandom w) (clock w) (ticks w) (trace w))
  else (Raise ValueError, w).

(** Operations on the entropy of the system. *)
Definition with_urandom {A} (f : Urandom -> A * Urandom) : M A := fun w =>
  let '(a, u) := f (urandom w) in
  (Ok a, mkWorld (fs w) (dirs w) (random w) u (clock w) (ticks w) (trace w)).

(** [str(uuid.uuid4())] *)
Definition uuid_uuid4 : M string := with_urandom uuid4.

(** [pl.read_csv(path)] and [df.write_csv(path)] *)
Definition pl_read_csv (path : string) : M DataFrame := fun w =>
  match fs w !! path with
  | None => (Raise (FileNotFoundError path), w)
  | Some b =>
      match read_csv b with
      | None => (Raise (ReadError path), w)
      | Some df =>
          (Ok df,
           mkWorld (fs w) (dirs w) (random w) (urandom w) (clock w) (ticks w)
             (trace w ++ [EvRead path]))
      end
  end.

Definition df_write_csv (df : DataFrame) (path : string) : M unit :=
  set_fs (insert path (write_csv df));; emit (EvWrite path).

(** [[f() for _ in range(n)]] *)
Fixpoint list_comprehension {A} (n : nat) (f : M A) : M (list A) :=
  match n with
  | O => mret []
  | S n' => x ← f; xs ← list_comprehension n' f; mret (x :: xs)
  end.

(** [for _ in range(n): s = body(s)] *)
Fixpoint for_range {S} (n : nat) (body : S -> M S) (s : S) : M S :=
  match n with
  | O => mret s
  | Datatypes.S n' => s' ← body s; for_range n' body s'
  end.

(** ** The script *)

Definition create_directories_if_not_exist (file_path : string) : M unit :=
  let directory := dirname file_path in
  missing ← (if String.eqb directory "" then (mret false : M bool)
             else e ← os_path_exists directory; mret (negb e));
  if missing : bool then
    os_makedirs directory;;
    logging_info (LogCreatedDirectory directory)
  else mret tt.

Definition create_data (locale : string) : M Faker :=
  logging_info (LogCreatedData (PyStr.split_last PyStr.underscore locale));;
  fake ← with_urandom (Faker_new locale);
  match fake with
  | Some fake => mret fake
  | None => raise AttributeError
  end.

Definition generate_record (fake : Faker) : M (list pyval * Faker) :=
  let '(person_name, fake) := fake_name fake in
  let user_name := str_lower (PyStr.replace PyStr.space "" person_name) in
  let '(domain, fake) := fake_free_email_domain fake in
  let email := user_name +:+ "@" +:+ domain in
  let '(personal_number, fake) := fake_ssn fake in
  '(birth_date, fake) ← with_clock (fake_date_of_birth fake);
  let '(address, fake) := fake_address fake in
  let address := PyStr.replace PyStr.newline ", " address in
  let '(phone_number, fake) := fake_phone_number fake in
  let '(mac_address, fake) := fake_mac_address fake in
  let '(ip_address, fake) := fake_ipv4 fake in
  let '(iban, fake) := fake_iban fake in
  '(accessed_at, fake) ← with_clock (fake_date_time_between "-1y" fake);
  session_duration ← random_randint 0 36000;
  download_speed ← random_randint 0 1000;
  upload_speed ← random_randint 0 800;
  consumed_traffic ← random_randint 0 2000000;
  mret ([ PStr person_name; PStr user_name; PStr email;
          PStr personal_number; PDate birth_date; PStr address;
          PStr phone_number; PStr mac_address; PStr ip_address; PStr iban;
          PDatetime accessed_at; PInt session_duration; PInt download_speed;
          PInt upload_speed; PInt consumed_traffic ], fake).

Definition headers : list string :=
  [ "person_name"; "user_name"; "email"; "personal_number"; "birth_date";
    "address"; "phone"; "mac_address"; "ip_address"; "iban"; "accessed_at";
    "session_duration"; "download_speed"; "upload_speed";
    "consumed_traffic" ].

Definition write_to_csv (file_path : string) (rows : Z) : M unit :=
  create_directories_if_not_exist file_path;;
  fake ← create_data "es_MX";
  open_w file_path;;
  writer_writerow file_path (PStr <$> headers);;
  for_range (Z.to_nat rows)
    (fun fake =>
       '(record, fake) ← generate_record fake;
       writer_writerow file_path record;;
       mret fake)
    fake;;
  logging_info (LogWritten rows).

Definition add_id (file_name : string) : M unit :=
  df ← pl_read_csv file_name;
  uuid_list ← list_comprehension (height df) uuid_uuid4;
  df ← match with_columns_series df "unique_id" (Utf8 <$> uuid_list) with
       | Some df => mret df
       | None => raise ShapeError
       end;
  df_write_csv df file_name;;
  logging_info LogAddedUUID.

Definition update_datetime (file_name : string) (run : string) : M unit :=
  if String.eqb run "next" then
    now ← datetime_now;
    let current_time := replace_microsecond now 0 in
    yesterday_time ← match sub_days current_time 1 with
                     | Some t => mret t
                     | None => raise OverflowError
                     end;
    df ← pl_read_csv file_name;
    let df := with_columns_lit df "accessed_at" (Datetime yesterday_time) in
    df_write_csv df file_name;;
    logging_info LogUpdatedTimestamp
  else logging_info LogNoTimestampUpdate.

(** The body of [if __name__ == "__main__"]: the choice of the row count
    and the run type (lines 136 to 141), the three steps (lines 143 to
    147), and the whole. *)
Definition main_decide : M (Z * string) :=
  today ← date_today;
  if String.eqb (isoformat today) "2025-09-22" then
    records ← random_randint 300372 300372;
    mret (records, "first")
  else
    records ← random_randint 0 1101;
    mret (records, "next").

Definition main_steps (output_file : string) (records : Z)
    (run_type : string) : M unit :=
  write_to_csv output_file records;;
  add_id output_file;;
  update_datetime output_file run_type.

Definition main : M unit :=
  today ← date_today;
  logging_info (LogStarted today);;
  today ← date_today;
  let output_file := "data/batch_" +:+ isoformat today +:+ ".csv" in
  create_directories_if_not_exist output_file;;
  '(records, run_type) ← main_decide;
  main_steps output_file records run_type;;
  today ← date_today;
  logging_info (LogFinished today).

End Script.

(** ** Vocabulary of the statements *)

(** The field of a record under a column name of the header. *)
Definition record_field `{Runtime} (name : string) (record : list pyval)
  : option pyval :=
  '(i, _) ← list_find (fun h => h = name) headers; record !! i.

(** The next [n] identifiers the system would hand out. *)
Fixpoint uuid_draws `{Runtime} (n : nat) (u : Urandom) : list string * Urandom :=
  match n with
  | O => ([], u)
  | S n' =>
      let '(x, u) := uuid4 u in
      let '(xs, u) := uuid_draws n' u in
      (x :: xs, u)
  end.

(** [path] holds a CSV file that polars reads as the frame [df]. *)
Definition csv_file `{Runtime} (w : World) (path : string) (df : DataFrame)
  : Prop :=
  exists b, fs w !! path = Some b /\ read_csv b = Some df /\ wf df.

(** The reading the clock gives next. *)
Definition clock_now `{Runtime} (w : World) : datetime := clock w (ticks w).

(** Two worlds that differ at most in their trace, their directories, the
    state of their random sources and the number of readings taken of the
    clock. *)
Definition same_files_and_clock `{Runtime} (w w' : World) : Prop :=
  fs w' = fs w /\ clock w' = clock w /\ (ticks w <= ticks w')%nat.

(** The date of the first batch. *)
Definition FIRST_DATE : date := mkdate 2025 9 22.

(** The path of the batch of a day, as line 131 of the script spells it. *)
Definition output_path (today : date) : string :=
  "data/batch_" +:+ isoformat today +:+ ".csv".

(** The Python type of a field. *)
Inductive pytype := TStr | TInt | TDate | TDatetime.

Definition type_of (v : pyval) : pytype :=
  match v with
  | PStr _ => TStr
  | PInt _ => TInt
  | PDate _ => TDate
  | PDatetime _ => TDatetime
  end.

(** A computation that leaves every file but the one at [path] as it is,
    whether it returns or raises. *)
Definition writes_only `{Runtime} {A} (path : string) (m : M A) : Prop :=
  forall w other, other <> path -> fs (m w).2 !! other = fs w !! other.

(** A computation that only adds to the trace, and one that does not
    remove the file at [path], whether they return or raise. *)
Definition appends `{Runtime} {A} (m : M A) : Prop :=
  forall w, exists t, trace (m w).2 = trace w ++ t.

Definition keeps_file `{Runtime} {A} (path : string) (m : M A) : Prop :=
  forall w, is_Some (fs w !! path) -> is_Some (fs (m w).2 !! path).

(** The world after one more reading of the clock. *)
Definition ticked `{Runtime} (w : World) : World :=
  mkWorld (fs w) (dirs w) (random w) (urandom w) (clock w) (S (ticks w))
    (trace w).

(** ** A small runtime to run the script on

    An instance of the interface on which everything computes: a file is
    kept as the table it spells, lowercasing is that of ASCII, the random
    sources are counters.  It shows that the laws can be met, and it is
    the runtime of the examples. *)

Module SimpleRuntime.

Definition time_str (t : datetime) : string :=
  PyStr.pad2 (hour t) +:+ ":" +:+ PyStr.pad2 (minute t) +:+ ":"
  +:+ PyStr.pad2 (second t).

(** [str] of a field, as [csv.writer] applies it; a datetime shows its
    microseconds when it has some. *)
Definition py_str (v : pyval) : string :=
  match v with
  | PStr s => s
  | PInt z => DecimalString.NilZero.string_of_int (Z.to_int z)
  | PDate d => isoformat d
  | PDatetime t =>
      isoformat (dt_date t) +:+ " " +:+ time_str t
      +:+ (if microsecond t =? 0 then ""
           else "." +:+ PyStr.pad6 (microsecond t))
  end.

Definition writerow (b : DataFrame) (r : list pyval) : DataFrame :=
  match b with
  | [] => (fun v => (py_str v, [])) <$> r
  | _ =>
      zip_with
        (fun (nc : string * list value) v => (nc.1, nc.2 ++ [Utf8 (py_str v)]))
        b r
  end.

#[export] Instance wf_dec (df : DataFrame) : Decision (wf df).
Proof. unfold wf. apply _. Defined.

Definition read (b : DataFrame) : option DataFrame :=
  if decide (wf b) then Some b else None.

Definition lower_ascii (c : ascii) : ascii :=
  let n := nat_of_ascii c in
  if ((65 <=? n) && (n <=? 90))%nat then ascii_of_nat (n + 32) else c.

Fixpoint lower (s : string) : string :=
  match s with
  | EmptyString => EmptyString
  | String c s' => String (lower_ascii c) (lower s')
  end.

Definition slash : ascii := ascii_of_nat 47.

Fixpoint dirname_from (seen best s : string) : string :=
  match s with
  | EmptyString => best
  | String c s' =>
      if Ascii.eqb c slash
      then dirname_from (seen +:+ String c EmptyString) seen s'
      else dirname_from (seen +:+ String c EmptyString) best s'
  end.

Definition names : list string :=
  [ "Ana Sofia Lopez"; "Luis Perez"; "Maria Jose Garcia Diaz" ].

Definition counted {A} (x : A) (f : nat) : A * nat := (x, S f).

(** The locales the simple Faker knows. *)
Definition locales : list string := [ "es_MX"; "es_ES"; "en_US" ].

#[export] Instance runtime : Runtime := {|
  bytes := DataFrame;
  csv_empty := [];
  csv_writerow := writerow;
  read_csv := read;
  write_csv := fun df => df;
  str_lower := lower;
  dirname := dirname_from "" "";
  RandomState := Z;
  randbelow := fun n g => (g mod n, (1103515245 * g + 12345) mod 2147483648);
  Urandom := nat;
  uuid4 := fun u =>
    ("3f2b8c1e-7a4d-4e5f-9b6a-00000000" +:+ PyStr.pad4 (Z.of_nat u), S u);
  Faker := nat;
  Faker_new := fun locale u =>
    (if bool_decide (locale ∈ locales) then Some u else None, S u);
  Faker_new_es_MX := fun u => ltac:(by eexists);
  fake_name := fun f => (nth (f mod 3) names "", S f);
  fake_free_email_domain := counted "gmail.com";
  fake_ssn := counted "LOAA900101MDFPNN09";
  fake_date_of_birth := fun f readings =>
    (counted (mkdate (year (dt_date (readings 0%nat)) - 35) 1 1) f, 1%nat);
  fake_address :=
    counted ("Calle Norte 12" +:+ String PyStr.newline "01000 Ciudad de Mexico");
  fake_phone_number := counted "55 1234 5678";
  fake_mac_address := counted "00:1b:44:11:3a:b7";
  fake_ipv4 := counted "192.168.1.10";
  fake_iban := counted "MX12345678901234567890";
  fake_date_time_between := fun _ f readings =>
    (counted
       (mkdatetime (mkdate (year (dt_date (readings 0%nat))) 3 14) 9 26 53 0)
       f, 1%nat)
|}.

(** A world to start from: no files, and a clock that reads
    2025-09-23 10:30:15.250000, later by a second at each reading. *)
Definition clock0 (k : nat) : datetime :=
  mkdatetime (mkdate 2025 9 23) 10 30 (15 + Z.of_nat (k mod 40)) 250000.

Definition world0 : World := mkWorld ∅ ∅ 42 0%nat clock0 0%nat [].

End SimpleRuntime.

(** ** A runtime that keeps files as text

    The simple runtime keeps a file as the table it spells, which hides
    what becomes of the text of a cell when polars reads a file and writes
    it again.  This runtime keeps a file as its records, each the text of
    its fields, and reads it as [pl.read_csv] does with its default
    arguments: the first record names the columns; an empty field is
    null; a column is a column of integers when its fields, among the
    first [INFER_SCHEMA_LENGTH] records, are decimal numerals, and a field
    further down that is none is then an error; any other column is text
    (dates are parsed only on request).  [write_csv] prints an integer in
    decimal and a datetime in the ISO format with six digits of
    microseconds.  Quoting and line ends are left out, and so are signed
    numerals, floats and booleans, which the script does not write: such
    columns stay text here.  The reader gives up on a header that is
    empty or repeats a name and on a record longer than the header. *)

Module TextRuntime.
Import SimpleRuntime.

Definition Csv : Type := list (list string).

Definition is_digit (c : ascii) : bool :=
  let n := nat_of_ascii c in ((48 <=? n) && (n <=? 57))%nat.

Fixpoint numeral_from (acc : Z) (s : string) : option Z :=
  match s with
  | EmptyString => Some acc
  | String c s' =>
      if is_digit c
      then numeral_from (10 * acc + Z.of_nat (nat_of_ascii c - 48)) s'
      else None
  end.

(** The integer a field spells: 1 to 18 decimal digits, which fit 64
    bits. *)
Definition parse_int (s : string) : option Z :=
  if bool_decide (1 <= String.length s <= 18)%nat then numeral_from 0 s
  else None.

Definition is_int_field (s : string) : bool :=
  String.eqb s "" || match parse_int s with Some _ => true | None => false end.

(** Schema inference for one column, from the fields of its first
    records. *)
Definition infer_int (fields : list string) : bool :=
  let sample := take INFER_SCHEMA_LENGTH fields in
  forallb is_int_field sample
  && existsb (fun s => negb (String.eqb s "")) sample.

Definition read_field (as_int : bool) (s : string) : option value :=
  if String.eqb s "" then Some Null
  else if as_int then Int64 <$> parse_int s
  else Some (Utf8 s).

Definition read_column (fields : list string) : option (list value) :=
  mapM (read_field (infer_int fields)) fields.

(** The column of a name: the fields of the records at its place in the
    header, a shorter record counting as empty there. *)
Definition read_named (rows : list (list string)) (x : nat * string)
  : option (string * list value) :=
  let '(i, name) := x in
  cells ← read_column ((fun r => default "" (r !! i)) <$> rows);
  Some (name, cells).

Definition read (b : Csv) : option DataFrame :=
  match b with
  | [] => None
  | header :: rows =>
      if decide (header <> [] /\ NoDup header
                 /\ Forall (fun r : list string =>
                              (length r <= length header)%nat) rows)
      then mapM (read_named rows) (imap pair header)
      else None
  end.

(** A cell as [write_csv] prints it; no frame read here holds a float,
    and printing one is not modelled: it prints as nothing. *)
Definition cell_text (v : value) : string :=
  match v with
  | Null => ""
  | Boolean b => if b then "true" else "false"
  | Int64 z => DecimalString.NilZero.string_of_int (Z.to_int z)
  | Float64 _ => ""
  | Utf8 s => s
  | Datetime t =>
      isoformat (dt_date t) +:+ "T" +:+ time_str t +:+ "."
      +:+ PyStr.pad6 (microsecond t)
  end.

Definition write (df : DataFrame) : Csv :=
  columns df
  :: ((fun i =>
         (fun nc : string * list value => cell_text (default Null (nc.2 !! i)))
         <$> df)
      <$> seq 0 (height df)).

(** A record as [csv.writer] writes it: [str] of each field. *)
Definition row_text (r : list pyval) : list string := py_str <$> r.

(** The runtime: [csv] and polars on text, the rest as in the simple
    runtime, but for the personal number, which is made of digits and
    begins with a zero, as some of those of Faker's "es_MX" do. *)
#[export] Instance runtime : Runtime := {|
  bytes := Csv;
  csv_empty := [];
  csv_writerow := fun b r => b ++ [row_text r];
  read_csv := read;
  write_csv := write;
  str_lower := lower;
  dirname := dirname_from "" "";
  RandomState := Z;
  randbelow := fun n g => (g mod n, (1103515245 * g + 12345) mod 2147483648);
  Urandom := nat;
  uuid4 := fun u =>
    ("3f2b8c1e-7a4d-4e5f-9b6a-00000000" +:+ PyStr.pad4 (Z.of_nat u), S u);
  Faker := nat;
  Faker_new := fun locale u =>
    (if bool_decide (locale ∈ locales) then Some u else None, S u);
  Faker_new_es_MX := fun u => ltac:(by eexists);
  fake_name := fun f => (nth (f mod 3) names "", S f);
  fake_free_email_domain := counted "gmail.com";
  fake_ssn := counted "05120152553";
  fake_date_of_birth := fun f readings =>
    (counted (mkdate (year (dt_date (readings 0%nat)) - 35) 1 1) f, 1%nat);
  fake_address :=
    counted ("Calle Norte 12" +:+ String PyStr.newline "01000 Ciudad de Mexico");
  fake_phone_number := counted "55 1234 5678";
  fake_mac_address := counted "00:1b:44:11:3a:b7";
  fake_ipv4 := counted "192.168.1.10";
  fake_iban := counted "MX12345678901234567890";
  fake_date_time_between := fun _ f readings =>
    (counted
       (mkdatetime (mkdate (year (dt_date (readings 0%nat))) 3 14) 9 26 53 0)
       f, 1%nat)
|}.

(** The field of a record of a file, by the name of its column; records
    are counted from 0 after the header. *)
Definition csv_field (b : Csv) (name : string) (row : nat) : option string :=
  match b with
  | [] => None
  | header :: rows =>
      '(i, _) ← list_find (fun h => h = name) header;
      r ← rows !! row;
      r !! i
  end.

End TextRuntime.

(** ** Inputs of the examples *)

Module Inputs.
Import SimpleRuntime.

(** A batch of two rows written by [write_to_csv], and an empty batch. *)
Definition batch_path : string := "data/batch_2025-09-23.csv".

Definition batch_world : World := (write_to_csv batch_path 2 world0).2.

Definition batch_frame : DataFrame :=
  Eval vm_compute in default [] (fs batch_world !! batch_path).

Definition empty_batch_world : World := (write_to_csv batch_path 0 world0).2.

Definition empty_batch_frame : DataFrame :=
  Eval vm_compute in default [] (fs empty_batch_world !! batch_path).

(** A file that has a column [unique_id] already. *)
Definition tagged_frame : DataFrame :=
  [ ("unique_id", [Utf8 "a-previous-identifier"]); ("visits", [Int64 7]) ].

Definition tagged_world : World :=
  mkWorld {[ "tagged.csv" := tagged_frame ]} ∅ 42 0%nat clock0 0%nat [].

End Inputs.

Module MoreInputs.
Import SimpleRuntime.

(** A clock stopped at the first instant [datetime] can hold. *)
Definition day_one_clock (k : nat) : datetime :=
  mkdatetime (mkdate 1 1 1) 8 0 0 0.

Definition day_one_world : World :=
  mkWorld {[ "tagged.csv" := Inputs.tagged_frame ]} ∅ 42 0%nat day_one_clock
    0%nat [].

(** A file the reader of the simple runtime refuses: two columns of one
    name. *)
Definition broken_frame : DataFrame :=
  [ ("visits", [Int64 7]); ("visits", [Int64 8]) ].

Definition broken_world : World :=
  mkWorld {[ "broken.csv" := broken_frame ]} ∅ 42 0%nat clock0 0%nat [].

End MoreInputs.

Module TextInputs.
Import TextRuntime.

(** A batch of one record whose personal number begins with a zero, on
    the clock of [world0]. *)
Definition stamp_file : Csv :=
  [ [ "person_name"; "personal_number"; "accessed_at"; "session_duration" ];
    [ "Ana Sofia Lopez"; "05120152553"; "2025-03-14 09:26:53"; "120" ] ].

Definition stamp_world : World :=
  mkWorld (R := runtime) {[ "batch.csv" := stamp_file ]} ∅ 42 0%nat
    SimpleRuntime.clock0 0%nat [].

(** A world without files. *)
Definition text_world0 : World :=
  mkWorld (R := runtime) ∅ ∅ 42 0%nat SimpleRuntime.clock0 0%nat [].

End TextInputs.

(** * Facts and theorems *)

Module PyDatetimeFacts.
Import PyDatetime.

Lemma days_before_year_split (q400 n100 n4 n1 : Z) :
  0 <= q400 -> 0 <= n100 <= 3 -> 0 <= n4 <= 24 -> 0 <= n1 <= 3 ->
  days_before_year (q400 * 400 + 1 + n100 * 100 + n4 * 4 + n1)
  = q400 * DI400Y + n100 * DI100Y + n4 * DI4Y + n1 * 365.
Proof.
  intros Hq H100 H4 H1. unfold days_before_year, DI400Y, DI100Y, DI4Y.
  cbv zeta.
  replace (q400 * 400 + 1 + n100 * 100 + n4 * 4 + n1 - 1)
    with (q400 * 400 + n100 * 100 + n4 * 4 + n1) by lia.
  assert (E4 : (q400 * 400 + n100 * 100 + n4 * 4 + n1) / 4
               = q400 * 100 + n100 * 25 + n4).
  { symmetry. apply (Z.div_unique _ 4 _ n1); lia. }
  assert (E100 : (q400 * 400 + n100 * 100 + n4 * 4 + n1) / 100
                 = q400 * 4 + n100).
  { symmetry. apply (Z.div_unique _ 100 _ (n4 * 4 + n1)); lia. }
  assert (E400 : (q400 * 400 + n100 * 100 + n4 * 4 + n1) / 400 = q400).
  { symmetry. apply (Z.div_unique _ 400 _ (n100 * 100 + n4 * 4 + n1)); lia. }
  rewrite E4, E100, E400. lia.
Qed.

Lemma month_day_table (leapyear : bool) :
  forallb (fun k => month_day_ok leapyear (Z.of_nat k)) (seq 0 365) = true.
Proof. destruct leapyear; vm_compute; reflexivity. Qed.

Lemma month_day_spec (leapyear : bool) (n : Z) :
  0 <= n < 365 ->
  let '(m, d) := month_day leapyear n in
  1 <= m <= 12 /\ 1 <= d
  /\ DAYS_BEFORE_MONTH m + (if (2 <? m) && leapyear then 1 else 0) + d
     = n + 1.
Proof.
  intros Hn.
  pose proof (month_day_table leapyear) as T.
  rewrite forallb_forall in T.
  specialize (T (Z.to_nat n)).
  rewrite Z2Nat.id in T by lia.
  assert (Hin : In (Z.to_nat n) (seq 0 365)) by (apply in_seq; lia).
  apply T in Hin. unfold month_day_ok in Hin.
  destruct (month_day leapyear n) as [m d].
  repeat (apply andb_prop in Hin; destruct Hin as [Hin ?]).
  lia.
Qed.

Lemma ord2ymd_month_day (n : Z) :
  let n0 := n - 1 in
  let r400 := n0 mod DI400Y in
  let n100 := r400 / DI100Y in
  let r100 := r400 mod DI100Y in
  let n4 := r100 / DI4Y in
  let r4 := r100 mod DI4Y in
  let n1 := r4 / 365 in
  let r1 := r4 mod 365 in
  let y := n0 / DI400Y * 400 + 1 + n100 * 100 + n4 * 4 + n1 in
  let leapyear := (n1 =? 3) && (negb (n4 =? 24) || (n100 =? 3)) in
  ord2ymd n =
    if (n1 =? 4) || (n100 =? 4) then mkdate (y - 1) 12 31
    else mkdate y (month_day leapyear r1).1 (month_day leapyear r1).2.
Proof.
  cbv zeta. unfold ord2ymd, month_day. cbv zeta.
  repeat match goal with |- context [if ?b then _ else _] =>
    destruct b; simpl; try reflexivity end.
Qed.

Lemma is_leap_split (q400 n100 n4 n1 : Z) :
  0 <= q400 -> 0 <= n100 <= 3 -> 0 <= n4 <= 24 -> 0 <= n1 <= 3 ->
  is_leap (q400 * 400 + 1 + n100 * 100 + n4 * 4 + n1)
  = (n1 =? 3) && (negb (n4 =? 24) || (n100 =? 3)).
Proof.
  intros Hq H100 H4 H1. unfold is_leap.
  set (y := q400 * 400 + 1 + n100 * 100 + n4 * 4 + n1).
  assert (M4 : y mod 4 = (n1 + 1) mod 4).
  { unfold y.
    replace (q400 * 400 + 1 + n100 * 100 + n4 * 4 + n1)
      with (n1 + 1 + (q400 * 100 + n100 * 25 + n4) * 4) by lia.
    apply Z.mod_add. lia. }
  assert (M100 : y mod 100 = (n4 * 4 + n1 + 1) mod 100).
  { unfold y.
    replace (q400 * 400 + 1 + n100 * 100 + n4 * 4 + n1)
      with (n4 * 4 + n1 + 1 + (q400 * 4 + n100) * 100) by lia.
    apply Z.mod_add. lia. }
  assert (M400 : y mod 400 = (n100 * 100 + n4 * 4 + n1 + 1) mod 400).
  { unfold y.
    replace (q400 * 400 + 1 + n100 * 100 + n4 * 4 + n1)
      with (n100 * 100 + n4 * 4 + n1 + 1 + q400 * 400) by lia.
    apply Z.mod_add. lia. }
  rewrite M4, M100, M400.
  destruct (Z.eqb_spec n1 3) as [-> | N1].
  - destruct (Z.eqb_spec n4 24) as [-> | N4].
    + destruct (Z.eqb_spec n100 3) as [-> | N100]; [reflexivity |].
      assert (n100 = 0 \/ n100 = 1 \/ n100 = 2) as [-> | [-> | ->]] by lia;
        reflexivity.
    + rewrite (Z.mod_small (n4 * 4 + 3 + 1) 100) by lia.
      simpl ((3 + 1) mod 4 =? 0).
      destruct (Z.eqb_spec (n4 * 4 + 3 + 1) 0); [lia | reflexivity].
  - rewrite (Z.mod_small (n1 + 1) 4) by lia. destruct (Z.eqb_spec (n1 + 1) 0); [lia | reflexivity].
Qed.

(** [date.fromordinal] is a right inverse of [date.toordinal]. *)
Lemma toordinal_fromordinal (n : Z) :
  1 <= n -> toordinal (fromordinal n) = n.
Proof.
  intros Hn. unfold fromordinal. rewrite ord2ymd_month_day. cbv zeta.
  set (n0 := n - 1).
  set (q400 := n0 / DI400Y). set (r400 := n0 mod DI400Y).
  set (n100 := r400 / DI100Y). set (r100 := r400 mod DI100Y).
  set (n4 := r100 / DI4Y). set (r4 := r100 mod DI4Y).
  set (n1 := r4 / 365). set (r1 := r4 mod 365).
  assert (D400 : n0 = DI400Y * q400 + r400) by (apply Z.div_mod; discriminate).
  assert (B400 : 0 <= r400 < DI400Y) by (apply Z.mod_pos_bound; reflexivity).
  assert (D100 : r400 = DI100Y * n100 + r100)
    by (apply Z.div_mod; discriminate).
  assert (B100 : 0 <= r100 < DI100Y) by (apply Z.mod_pos_bound; reflexivity).
  assert (D4 : r100 = DI4Y * n4 + r4) by (apply Z.div_mod; discriminate).
  assert (B4 : 0 <= r4 < DI4Y) by (apply Z.mod_pos_bound; reflexivity).
  assert (D1 : r4 = 365 * n1 + r1) by (apply Z.div_mod; discriminate).
  assert (B1 : 0 <= r1 < 365) by (apply Z.mod_pos_bound; reflexivity).
  assert (Q400 : 0 <= q400) by (apply Z.div_pos; unfold n0, DI400Y; lia).
  assert (Q100 : 0 <= n100) by (apply Z.div_pos; unfold DI100Y; lia).
  assert (Q4 : 0 <= n4) by (apply Z.div_pos; unfold DI4Y; lia).
  assert (Q1 : 0 <= n1) by (apply Z.div_pos; lia).
  unfold DI400Y, DI100Y, DI4Y in D400, B400, D100, B100, D4, B4.
  assert (U100 : n100 <= 4) by lia.
  assert (U4 : n4 <= 24) by lia.
  assert (U1 : n1 <= 4) by lia.
  destruct (Z.eqb_spec n1 4) as [E1 | N1]; simpl orb.
  - (* last day of a leap year that closes a 4-year cycle *)
    assert (n100 <= 3 /\ n4 <= 23 /\ r1 = 0) as (L100 & L4 & R1) by lia.
    unfold toordinal, ymd2ord, days_before_month. simpl year. simpl month.
    simpl day.
    replace (q400 * 400 + 1 + n100 * 100 + n4 * 4 + n1 - 1)
      with (q400 * 400 + 1 + n100 * 100 + n4 * 4 + 3) by lia.
    rewrite days_before_year_split, is_leap_split by lia.
    destruct (Z.eqb_spec n4 24); [lia |].
    simpl. unfold DI400Y, DI100Y, DI4Y. lia.
  - destruct (Z.eqb_spec n100 4) as [E100 | N100].
    + (* last day of a 400-year cycle *)
      assert (r100 = 0) by lia.
      assert (n4 = 0 /\ n1 = 0 /\ r1 = 0) as (Z4 & Z1 & R1) by lia.
      unfold toordinal, ymd2ord, days_before_month. simpl year. simpl month.
      simpl day.
      replace (q400 * 400 + 1 + n100 * 100 + n4 * 4 + n1 - 1)
        with (q400 * 400 + 1 + 3 * 100 + 24 * 4 + 3) by lia.
      rewrite days_before_year_split, is_leap_split by lia.
      simpl. unfold DI400Y, DI100Y, DI4Y. lia.
    + pose proof (month_day_spec
                    ((n1 =? 3) && (negb (n4 =? 24) || (n100 =? 3))) r1 B1)
        as M.
      destruct (month_day _ r1) as [m d]. destruct M as (Hm & Hd & Hsum).
      unfold toordinal, ymd2ord, days_before_month. simpl.
      rewrite days_before_year_split, is_leap_split by lia.
      unfold DI400Y, DI100Y, DI4Y. lia.
Qed.

End PyDatetimeFacts.

(** ** Facts about frames *)

Module PolarsFacts.

Lemma get_column_elem (df : DataFrame) (name : string) :
  name ∈ columns df <-> is_Some (get_column df name).
Proof.
  induction df as [| [n c] df IH]; simpl.
  - split; [intros H; inversion H | intros [x H]; discriminate].
  - case_decide as E.
    + subst. split; [eauto | intros _; left].
    + rewrite <- IH. unfold columns. simpl. rewrite elem_of_cons.
      split; [intros [-> | H]; [congruence | exact H] | auto].
Qed.

Lemma get_column_set_eq (df : DataFrame) name col :
  get_column (set_column name col df) name = Some col.
Proof.
  induction df as [| [n c] df IH]; simpl.
  - by rewrite decide_True.
  - case_decide as E; simpl.
    + by rewrite decide_True.
    + by rewrite decide_False.
Qed.

Lemma get_column_set_ne (df : DataFrame) name col other :
  other <> name ->
  get_column (set_column name col df) other = get_column df other.
Proof.
  intros Hne. induction df as [| [n c] df IH]; simpl.
  - by rewrite decide_False.
  - case_decide as E; simpl.
    + subst. by rewrite !decide_False.
    + case_decide; [done | exact IH].
Qed.

(** An existing name keeps its place. *)
Lemma columns_set_existing (df : DataFrame) name col :
  name ∈ columns df -> columns (set_column name col df) = columns df.
Proof.
  induction df as [| [n c] df IH]; simpl; intros Hin.
  - inversion Hin.
  - case_decide as E; simpl.
    + by subst.
    + unfold columns in *. simpl in *. f_equal. apply IH.
      apply elem_of_cons in Hin as [-> | Hin]; [congruence | exact Hin].
Qed.

(** A new name is appended after the last column. *)
Lemma set_column_fresh (df : DataFrame) name col :
  name ∉ columns df -> set_column name col df = df ++ [(name, col)].
Proof.
  induction df as [| [n c] df IH]; simpl; intros Hnin; [done |].
  unfold columns in Hnin. simpl in Hnin.
  apply not_elem_of_cons in Hnin as [Hne Hnin].
  rewrite decide_False by congruence. f_equal. by apply IH.
Qed.

Lemma columns_set_fresh (df : DataFrame) name col :
  name ∉ columns df -> columns (set_column name col df) = columns df ++ [name].
Proof.
  intros Hnin. rewrite set_column_fresh by done.
  unfold columns. by rewrite fmap_app.
Qed.

Lemma height_set_column (df : DataFrame) name col :
  df <> [] -> length col = height df ->
  height (set_column name col df) = height df.
Proof.
  destruct df as [| [n c] df]; [done |]. simpl. intros _ Hlen.
  case_decide; simpl; done.
Qed.

Lemma set_column_cells (df : DataFrame) name col (h : nat) :
  length col = h ->
  Forall (fun nc : string * list value => length nc.2 = h) df ->
  Forall (fun nc : string * list value => length nc.2 = h)
    (set_column name col df).
Proof.
  intros Hlen. induction 1 as [| [n c] l Hc Hl IH]; simpl.
  - by constructor.
  - case_decide; constructor; simpl; auto.
Qed.

Lemma wf_set_column (df : DataFrame) name col :
  wf df -> length col = height df -> wf (set_column name col df).
Proof.
  intros (Hne & Hnd & Hall) Hlen. split; [| split].
  - destruct df as [| [n c] df]; [done |]. simpl. by case_decide.
  - destruct (decide (name ∈ columns df)) as [Hin | Hnin].
    + by rewrite columns_set_existing.
    + rewrite columns_set_fresh by done.
      apply NoDup_app. split; [done |]. split.
      * intros x Hx Hx'. apply list_elem_of_singleton in Hx'. by subst.
      * apply NoDup_singleton.
  - rewrite height_set_column by done. by apply set_column_cells.
Qed.

End PolarsFacts.

(** ** Facts about the runtime models *)

Module PyStrFacts.

Lemma contains_append c s1 s2 :
  PyStr.contains c (s1 +:+ s2) = PyStr.contains c s1 || PyStr.contains c s2.
Proof.
  induction s1 as [| a s1 IH]; simpl; [done |].
  rewrite IH. by rewrite orb_assoc.
Qed.

(** Replacing a character by the empty string leaves none of it. *)
Lemma contains_replace_empty c s :
  PyStr.contains c (PyStr.replace c "" s) = false.
Proof.
  induction s as [| a s IH]; simpl; [done |].
  destruct (Ascii.eqb a c) eqn:E; simpl; [exact IH |].
  by rewrite E.
Qed.

Lemma append_assoc (a b c : string) : a +:+ (b +:+ c) = (a +:+ b) +:+ c.
Proof.
  induction a as [| x a IH]; [done |].
  change (String x (a +:+ (b +:+ c)) = String x ((a +:+ b) +:+ c)).
  by rewrite IH.
Qed.

Lemma prefix_append p s : String.prefix p (p +:+ s) = true.
Proof.
  induction p as [| a p IH]; simpl.
  - by destruct s.
  - destruct (ascii_dec a a); [exact IH | done].
Qed.

Lemma digit_inj a b :
  0 <= a < 10 -> 0 <= b < 10 -> PyStr.digit a = PyStr.digit b -> a = b.
Proof.
  intros Ha Hb E. unfold PyStr.digit in E.
  apply (f_equal N_of_ascii) in E.
  rewrite !N_ascii_embedding in E by lia. lia.
Qed.

Lemma pad2_inj a b :
  0 <= a < 100 -> 0 <= b < 100 -> PyStr.pad2 a = PyStr.pad2 b -> a = b.
Proof.
  intros Ha Hb E. unfold PyStr.pad2 in E. injection E as E1 E0.
  apply digit_inj in E1; [| apply Z.mod_pos_bound; lia ..].
  apply digit_inj in E0; [| apply Z.mod_pos_bound; lia ..].
  rewrite !Z.mod_small in E1
    by (split; [apply Z.div_pos; lia | apply Z.div_lt_upper_bound; lia]).
  rewrite (Z.div_mod a 10), (Z.div_mod b 10) by lia. lia.
Qed.

Lemma pad4_inj a b :
  0 <= a < 10000 -> 0 <= b < 10000 -> PyStr.pad4 a = PyStr.pad4 b -> a = b.
Proof.
  intros Ha Hb E. unfold PyStr.pad4, PyStr.pad2 in E.
  injection E as E3 E2 E1 E0.
  apply digit_inj in E3; [| apply Z.mod_pos_bound; lia ..].
  apply digit_inj in E2; [| apply Z.mod_pos_bound; lia ..].
  apply digit_inj in E1; [| apply Z.mod_pos_bound; lia ..].
  apply digit_inj in E0; [| apply Z.mod_pos_bound; lia ..].
  Z.to_euclidean_division_equations. lia.
Qed.

End PyStrFacts.

Module PyDatetimeSpec.
Import PyDatetimeFacts.

Lemma days_in_month_bound y m : 1 <= m <= 12 -> 28 <= days_in_month y m <= 31.
Proof.
  intros Hm. unfold days_in_month.
  assert (m = 1 \/ m = 2 \/ m = 3 \/ m = 4 \/ m = 5 \/ m = 6 \/ m = 7
          \/ m = 8 \/ m = 9 \/ m = 10 \/ m = 11 \/ m = 12) as Hc by lia.
  repeat (destruct Hc as [-> | Hc]); try subst m;
    destruct (is_leap y); simpl; lia.
Qed.

(** [str] of a date determines the date. *)
Lemma isoformat_inj d1 d2 :
  valid_date d1 -> valid_date d2 -> isoformat d1 = isoformat d2 -> d1 = d2.
Proof.
  intros (Hy1 & Hm1 & Hd1) (Hy2 & Hm2 & Hd2) E.
  pose proof (days_in_month_bound (year d1) (month d1) Hm1).
  pose proof (days_in_month_bound (year d2) (month d2) Hm2).
  destruct d1 as [y1 m1 dd1], d2 as [y2 m2 dd2]. simpl in *.
  unfold isoformat, PyStr.pad4, PyStr.pad2 in E. simpl in E.
  injection E as E3 E2 E1 E0 M1 M0 D1 D0.
  assert (Ey : PyStr.pad4 y1 = PyStr.pad4 y2)
    by (unfold PyStr.pad4, PyStr.pad2; congruence).
  assert (Em : PyStr.pad2 m1 = PyStr.pad2 m2)
    by (unfold PyStr.pad2; congruence).
  assert (Ed : PyStr.pad2 dd1 = PyStr.pad2 dd2)
    by (unfold PyStr.pad2; congruence).
  apply PyStrFacts.pad4_inj in Ey; [| lia ..].
  apply PyStrFacts.pad2_inj in Em; [| lia ..].
  apply PyStrFacts.pad2_inj in Ed; [| lia ..].
  congruence.
Qed.

Lemma isoformat_eqb d1 d2 :
  valid_date d1 -> valid_date d2 ->
  String.eqb (isoformat d1) (isoformat d2) = bool_decide (d1 = d2).
Proof.
  intros H1 H2. case_bool_decide as E.
  - subst. apply String.eqb_refl.
  - apply String.eqb_neq. intros E'. by apply E, isoformat_inj.
Qed.

(** Every date lies between ordinal 1 and [MAXORDINAL]. *)
Lemma toordinal_range d : valid_date d -> 1 <= toordinal d <= MAXORDINAL.
Proof.
  intros (Hy & Hm & Hd). unfold toordinal, ymd2ord, MAXORDINAL.
  destruct d as [y m dd]. simpl in *.
  assert (Hmd : 1 <= days_before_month y m + dd
                <= 365 + (if is_leap y then 1 else 0)).
  { unfold days_before_month, days_in_month in *.
    assert (m = 1 \/ m = 2 \/ m = 3 \/ m = 4 \/ m = 5 \/ m = 6 \/ m = 7
            \/ m = 8 \/ m = 9 \/ m = 10 \/ m = 11 \/ m = 12) as Hc by lia.
    repeat (destruct Hc as [-> | Hc]); try subst m;
      destruct (is_leap y); simpl in *; lia. }
  assert (Hleap : is_leap y = true -> y <= 9996).
  { unfold is_leap. intros L. apply andb_prop in L as [L _].
    apply Z.eqb_eq in L.
    Z.to_euclidean_division_equations. lia. }
  unfold days_before_year. cbv zeta.
  destruct (is_leap y).
  - specialize (Hleap eq_refl). Z.to_euclidean_division_equations. lia.
  - Z.to_euclidean_division_equations. lia.
Qed.

(** One day before: the previous ordinal, the same time of day. *)
Lemma sub_days_one (t : datetime) :
  valid_datetime t -> 1 < toordinal (dt_date t) ->
  exists ts,
    sub_days t 1 = Some ts
    /\ toordinal (dt_date ts) = toordinal (dt_date t) - 1
    /\ hour ts = hour t /\ minute ts = minute t /\ second ts = second t
    /\ microsecond ts = microsecond t.
Proof.
  intros (Hd & Hh & Hm & Hs & Hus) Hord.
  pose proof (toordinal_range _ Hd) as Hr.
  unfold sub_days. cbv zeta.
  destruct (Z.ltb_spec 0 (toordinal (dt_date t) - 1)); [| lia].
  destruct (Z.leb_spec (toordinal (dt_date t) - 1) MAXORDINAL); [| lia].
  simpl. eexists. split; [reflexivity |]. simpl.
  rewrite toordinal_fromordinal by lia.
  repeat split; Z.to_euclidean_division_equations; lia.
Qed.

Lemma seconds_of_sub_days_one (t ts : datetime) :
  toordinal (dt_date ts) = toordinal (dt_date t) - 1 ->
  hour ts = hour t -> minute ts = minute t -> second ts = second t ->
  seconds_of ts = seconds_of t - 86400.
Proof. unfold seconds_of. intros -> -> -> ->. lia. Qed.

(** The timestamp of the "next" pass: the reading [now] with its
    microseconds set to zero, minus one day. *)
Lemma yesterday_time_spec (now : datetime) :
  valid_datetime now -> 1 < toordinal (dt_date now) ->
  exists ts,
    sub_days (replace_microsecond now 0) 1 = Some ts
    /\ microsecond ts = 0
    /\ seconds_of ts = seconds_of now - 86400.
Proof.
  intros (Hd & Hh & Hm & Hs & Hus) Hord.
  destruct (sub_days_one (replace_microsecond now 0))
    as (ts & Hts & Ho & Hh' & Hm' & Hs' & Hus').
  { unfold valid_datetime. simpl. repeat split; try lia; apply Hd. }
  { exact Hord. }
  exists ts. split; [exact Hts |]. split; [exact Hus' |].
  exact (seconds_of_sub_days_one _ _ Ho Hh' Hm' Hs').
Qed.

End PyDatetimeSpec.

(** ** Running the script's functions *)

Section Runs.
Context `{R : Runtime}.

Lemma bind_run {A B} (m : M A) (f : A -> M B) w a w' :
  m w = (Ok a, w') -> (m ≫= f) w = f a w'.
Proof. intros E. unfold mbind, M_bind. by rewrite E. Qed.

Lemma random_randint_run a b w :
  a <= b ->
  random_randint a b w
  = (Ok (a + (randbelow (b + 1 - a) (random w)).1),
     mkWorld (fs w) (dirs w) (randbelow (b + 1 - a) (random w)).2 (urandom w)
       (clock w) (ticks w) (trace w)).
Proof.
  intros Hab. unfold random_randint. cbv zeta.
  destruct (Z.ltb_spec 0 (b + 1 - a)); [| lia].
  by destruct (randbelow _ _).
Qed.

Lemma with_clock_bind {A B} (f : (nat -> datetime) -> A * nat)
    (k : A -> M B) w :
  (with_clock f ≫= k) w
  = let '(a, n) := f (fun i => clock w (ticks w + i)%nat) in
    k a (mkWorld (fs w) (dirs w) (random w) (urandom w) (clock w)
           (ticks w + n)%nat (trace w)).
Proof.
  unfold mbind, M_bind, with_clock. by destruct (f _) as [a n].
Qed.

End Runs.

(** Runs [generate_record] up to its four draws: the providers are named
    apart, the two that read the clock with the readings they took. *)
Ltac run_generate_record :=
  unfold generate_record;
  repeat (first
    [ rewrite with_clock_bind
    | match goal with
      | |- context [match ?p with pair _ _ => _ end] => destruct p as [? ?]
      end ];
    cbn beta iota);
  do 4 (erewrite bind_run by (apply random_randint_run; lia)).

Section Generator.
Context `{R : Runtime}.

Lemma generate_record_run fake w :
  exists person_name domain personal_number birth_date address phone_number
         mac_address ip_address iban accessed_at g0 g1 g2 g3 fake' w',
    generate_record fake w
    = (Ok ([ PStr person_name;
             PStr (str_lower (PyStr.replace PyStr.space "" person_name));
             PStr (str_lower (PyStr.replace PyStr.space "" person_name)
                   +:+ "@" +:+ domain);
             PStr personal_number; PDate birth_date; PStr address;
             PStr phone_number; PStr mac_address; PStr ip_address; PStr iban;
             PDatetime accessed_at;
             PInt (0 + (randbelow 36001 g0).1);
             PInt (0 + (randbelow 1001 g1).1);
             PInt (0 + (randbelow 801 g2).1);
             PInt (0 + (randbelow 2000001 g3).1) ], fake'), w')
    /\ person_name = (fake_name fake).1
    /\ same_files_and_clock w w' /\ urandom w' = urandom w
    /\ trace w' = trace w.
Proof.
  assert (Hname : forall x, x = (fake_name fake).1 -> x = (fake_name fake).1)
    by done.
  revert Hname. run_generate_record. intros Hname. simpl.
  do 16 eexists. split; [reflexivity |]. simpl.
  split; [by apply Hname |]. repeat split. simpl. lia.
Qed.

Lemma create_directories_run file_path w :
  exists w', create_directories_if_not_exist file_path w = (Ok tt, w')
             /\ same_files_and_clock w w' /\ urandom w' = urandom w
             /\ random w' = random w.
Proof.
  unfold create_directories_if_not_exist, os_path_exists, mbind, M_bind.
  destruct (String.eqb (dirname file_path) ""); simpl.
  - eexists. split; [reflexivity |]. by repeat split.
  - destruct (negb _); eexists; (split; [reflexivity |]); by repeat split.
Qed.

(** The loop of [write_to_csv]: [n] records, each one row of the file. *)
Lemma write_loop_run file_path n : forall fake w b,
  fs w !! file_path = Some b ->
  exists records fake' w',
    for_range n
      (fun fake =>
         '(record, fake) ← generate_record fake;
         writer_writerow file_path record;;
         mret fake) fake w = (Ok fake', w')
    /\ length records = n
    /\ Forall (fun r => length r = 15%nat) records
    /\ fs w' = <[file_path := fold_left csv_writerow records b]> (fs w)
    /\ clock w' = clock w /\ (ticks w <= ticks w')%nat
    /\ urandom w' = urandom w /\ trace w' = trace w.
Proof.
  induction n as [| n IH]; intros fake w b Hb; simpl.
  - exists [], fake, w. split; [reflexivity |]. split; [done |].
    split; [done |]. split; [simpl; by rewrite insert_id |]. done.
  - destruct (generate_record_run fake w)
      as (p0 & p1 & p2 & p3 & p4 & p5 & p6 & p7 & p8 & p9 & g0 & g1 & g2 & g3
          & fake1 & w1 & E & _ & (Hfs & Hclock & Hticks) & Hu & Htr).
    match type of E with _ = (Ok (?r, _), _) => set (record := r) in * end.
    assert (Hrec : length record = 15%nat) by reflexivity. clearbody record.
    erewrite bind_run; [| erewrite bind_run by exact E; simpl; reflexivity].
    match goal with |- context [for_range n _ fake1 ?w2] =>
      destruct (IH fake1 w2 (csv_writerow b record))
        as (records & fake' & w' & E' & Hlen & Hall & Hfs' & Hc' & Ht' & Hu'
            & Htr')
    end.
    { simpl. rewrite Hfs. rewrite lookup_alter_eq. by rewrite Hb. }
    exists (record :: records), fake', w'. split; [exact E' |].
    simpl in *. split; [congruence |].
    split; [constructor; [exact Hrec | exact Hall] |].
    split.
    { rewrite Hfs', Hfs. apply map_eq. intros k.
      destruct (decide (file_path = k)) as [-> | Hne].
      - by rewrite !lookup_insert_eq.
      - by rewrite !lookup_insert_ne, lookup_alter_ne. }
    split; [congruence |]. split; [lia |]. split; congruence.
Qed.

End Generator.

Section Passes.
Context `{R : Runtime}.

Lemma logging_info_run m w :
  logging_info m w
  = (Ok tt, mkWorld (fs w) (dirs w) (random w) (urandom w) (clock w) (ticks w)
              (trace w ++ [EvLog m])).
Proof. reflexivity. Qed.

Lemma open_w_run path w :
  open_w path w
  = (Ok tt, mkWorld (<[path := csv_empty]> (fs w)) (dirs w) (random w)
              (urandom w) (clock w) (ticks w) (trace w ++ [EvOpen path])).
Proof. reflexivity. Qed.

Lemma writer_writerow_run path r w :
  writer_writerow path r w
  = (Ok tt, mkWorld (alter (fun b => csv_writerow b r) path (fs w)) (dirs w)
              (random w) (urandom w) (clock w) (ticks w) (trace w)).
Proof. reflexivity. Qed.

Lemma datetime_now_run w :
  datetime_now w
  = (Ok (clock_now w),
     mkWorld (fs w) (dirs w) (random w) (urandom w) (clock w) (S (ticks w))
       (trace w)).
Proof. reflexivity. Qed.

Lemma pl_read_csv_run path w b df :
  fs w !! path = Some b -> read_csv b = Some df ->
  pl_read_csv path w
  = (Ok df, mkWorld (fs w) (dirs w) (random w) (urandom w) (clock w) (ticks w)
              (trace w ++ [EvRead path])).
Proof. intros Hb Hr. unfold pl_read_csv. by rewrite Hb, Hr. Qed.

Lemma df_write_csv_run df path w :
  df_write_csv df path w
  = (Ok tt, mkWorld (<[path := write_csv df]> (fs w)) (dirs w) (random w)
              (urandom w) (clock w) (ticks w) (trace w ++ [EvWrite path])).
Proof. reflexivity. Qed.

(** [create_data] by cases: the record is logged and the generator built;
    a locale Faker does not know raises after the record. *)
Lemma create_data_cases locale w :
  create_data locale w
  = let w' :=
      mkWorld (fs w) (dirs w) (random w) (Faker_new locale (urandom w)).2
        (clock w) (ticks w)
        (trace w
           ++ [EvLog (LogCreatedData
                        (PyStr.split_last PyStr.underscore locale))]) in
    match (Faker_new locale (urandom w)).1 with
    | Some fake => (Ok fake, w')
    | None => (Raise AttributeError, w')
    end.
Proof.
  unfold create_data. erewrite bind_run by apply logging_info_run.
  unfold with_urandom, mbind, M_bind. simpl.
  by destruct (Faker_new locale (urandom w)) as [[fake |] u].
Qed.

Lemma create_data_run w :
  exists fake w', create_data "es_MX" w = (Ok fake, w')
                  /\ fs w' = fs w /\ clock w' = clock w
                  /\ ticks w' = ticks w.
Proof.
  rewrite create_data_cases. cbv zeta.
  destruct (Faker_new_es_MX (urandom w)) as [fake ->].
  by do 2 eexists.
Qed.

Lemma write_to_csv_run file_path rows w :
  exists records w',
    write_to_csv file_path rows w = (Ok tt, w')
    /\ length records = Z.to_nat rows
    /\ Forall (fun r => length r = 15%nat) records
    /\ fs w' = <[file_path := csv_of ((PStr <$> headers) :: records)]> (fs w)
    /\ clock w' = clock w /\ (ticks w <= ticks w')%nat.
Proof.
  unfold write_to_csv.
  destruct (create_directories_run file_path w)
    as (w1 & E1 & (Hfs1 & Hc1 & Ht1) & _ & _).
  erewrite bind_run by exact E1.
  destruct (create_data_run w1) as (fake & w2 & E2 & Hfs2 & Hc2 & Ht2).
  erewrite bind_run by exact E2.
  erewrite bind_run by apply open_w_run.
  erewrite bind_run by apply writer_writerow_run.
  cbn [fs dirs random urandom clock ticks trace].
  match goal with |- exists _ _, (_ ≫= _) ?w3 = _ /\ _ =>
    destruct (write_loop_run file_path (Z.to_nat rows) fake w3
                (csv_writerow csv_empty (PStr <$> headers)))
      as (records & fake' & w' & E' & Hlen & Hall & Hfs' & Hc' & Ht' & _ & _)
  end.
  { simpl. rewrite lookup_alter_eq, lookup_insert_eq. reflexivity. }
  erewrite bind_run by exact E'. rewrite logging_info_run.
  exists records. eexists. split; [reflexivity |]. simpl in *.
  repeat split; try congruence; try lia.
  rewrite Hfs', Hfs2, Hfs1. unfold csv_of. simpl. apply map_eq. intros k.
  destruct (decide (file_path = k)) as [-> | Hne].
  - by rewrite !lookup_insert_eq.
  - by rewrite !lookup_insert_ne, lookup_alter_ne, lookup_insert_ne.
Qed.

Lemma uuid_draws_length n u : length (uuid_draws n u).1 = n.
Proof.
  revert u. induction n as [| n IH]; intros u; simpl; [done |].
  destruct (uuid4 u) as [x u1]. specialize (IH u1).
  destruct (uuid_draws n u1) as [xs u2]. simpl in *. by rewrite IH.
Qed.

Lemma list_comprehension_uuid4 n : forall w,
  list_comprehension n uuid_uuid4 w
  = (Ok (uuid_draws n (urandom w)).1,
     mkWorld (fs w) (dirs w) (random w) (uuid_draws n (urandom w)).2
       (clock w) (ticks w) (trace w)).
Proof.
  induction n as [| n IH]; intros w; simpl.
  - by destruct w.
  - unfold mbind, M_bind, uuid_uuid4, with_urandom.
    destruct (uuid4 (urandom w)) as [x u1]. rewrite IH. simpl.
    by destruct (uuid_draws n u1).
Qed.

(** The tag pass on a readable file: the frame that is written is the
    frame that was read with column [unique_id] set to the next
    identifiers of the system, one for each row. *)
Lemma add_id_run file_name w df :
  csv_file w file_name df ->
  add_id file_name w
  = (Ok tt,
     mkWorld
       (<[file_name :=
            write_csv
              (set_column "unique_id"
                 (Utf8 <$> (uuid_draws (height df) (urandom w)).1) df)]>
          (fs w))
       (dirs w) (random w) (uuid_draws (height df) (urandom w)).2 (clock w)
       (ticks w)
       (trace w ++ [EvRead file_name] ++ [EvWrite file_name]
          ++ [EvLog LogAddedUUID])).
Proof.
  intros (b & Hb & Hread & Hwf). unfold add_id.
  erewrite bind_run by (by apply (pl_read_csv_run _ _ b)).
  erewrite bind_run by apply list_comprehension_uuid4.
  unfold with_columns_series.
  rewrite decide_True
    by (right; by rewrite length_fmap, uuid_draws_length).
  erewrite bind_run by reflexivity.
  erewrite bind_run by apply df_write_csv_run.
  rewrite logging_info_run. simpl. by rewrite <- !app_assoc.
Qed.

(** The timestamp pass in mode "next" on a readable file. *)
Lemma update_datetime_run file_name w df :
  csv_file w file_name df ->
  valid_datetime (clock_now w) -> 1 < toordinal (dt_date (clock_now w)) ->
  exists ts,
    sub_days (replace_microsecond (clock_now w) 0) 1 = Some ts
    /\ microsecond ts = 0
    /\ seconds_of ts = seconds_of (clock_now w) - 86400
    /\ update_datetime file_name "next" w
       = (Ok tt,
          mkWorld
            (<[file_name :=
                 write_csv (with_columns_lit df "accessed_at" (Datetime ts))]>
               (fs w))
            (dirs w) (random w) (urandom w) (clock w) (S (ticks w))
            (trace w ++ [EvRead file_name] ++ [EvWrite file_name]
               ++ [EvLog LogUpdatedTimestamp])).
Proof.
  intros (b & Hb & Hread & Hwf) Hvalid Hord.
  destruct (PyDatetimeSpec.yesterday_time_spec _ Hvalid Hord)
    as (ts & Hts & Hus & Hsec).
  exists ts. split; [exact Hts |]. split; [exact Hus |].
  split; [exact Hsec |].
  unfold update_datetime. rewrite String.eqb_refl.
  erewrite bind_run by apply datetime_now_run.
  cbv zeta. rewrite Hts.
  erewrite bind_run by reflexivity.
  erewrite bind_run by (by apply (pl_read_csv_run _ _ b)).
  erewrite bind_run by apply df_write_csv_run.
  rewrite logging_info_run. simpl. by rewrite <- !app_assoc.
Qed.

End Passes.

(** ** The simple runtime meets the contracts *)

Module SimpleRuntimeLaws.
Import SimpleRuntime.

#[export] Instance random_laws : RandomLaws runtime.
Proof. intros n g Hn. simpl. apply Z.mod_pos_bound. exact Hn. Qed.

Lemma lower_ascii_space c :
  Ascii.eqb c PyStr.space = false ->
  Ascii.eqb (lower_ascii c) PyStr.space = false.
Proof.
  destruct c as [[] [] [] [] [] [] [] []]; vm_compute; congruence.
Qed.

#[export] Instance lower_laws : LowerLaws runtime.
Proof.
  intros s. simpl. induction s as [| c s IH]; simpl; [done |].
  intros H. apply orb_false_elim in H as [Hc Hs].
  by rewrite lower_ascii_space, IH.
Qed.

Lemma writerow_rows (header : list string) : forall rows b k,
  header <> [] -> columns b = header ->
  Forall (fun nc : string * list value => length nc.2 = k) b ->
  Forall (fun r : list pyval => length r = length header) rows ->
  columns (fold_left writerow rows b) = header
  /\ Forall (fun nc : string * list value => length nc.2 = (k + length rows)%nat)
       (fold_left writerow rows b).
Proof.
  induction rows as [| r rows IH]; intros b k Hne Hcols Hall Hrows; simpl.
  - split; [done |]. by rewrite Nat.add_0_r.
  - inversion Hrows as [| ? ? Hr Hrows']; subst.
    assert (Hlen : length b = length r).
    { rewrite Hr. unfold columns. by rewrite length_fmap. }
    destruct b as [| nc b]; [done |].
    replace (k + S (length rows))%nat with (S k + length rows)%nat by lia.
    apply IH; try done.
    + unfold writerow, columns. clear -Hlen. revert Hlen.
      generalize (nc :: b). intros l. revert r.
      induction l as [| x l IHl]; intros [| v r] Hlen; simpl in *; try done.
      f_equal. apply IHl. lia.
    + unfold writerow. clear -Hall. revert Hall.
      generalize (nc :: b). intros l Hall. revert r.
      induction Hall as [| x l Hx Hl IHl]; intros [| v r]; simpl;
        constructor; simpl.
      * rewrite length_app. simpl. lia.
      * apply IHl.
Qed.

#[export] Instance csv_laws : CsvLaws runtime.
Proof.
  split.
  - intros b df. simpl. unfold read. case_decide; congruence.
  - intros header rows Hne Hnd Hrows _. simpl.
    unfold csv_of. simpl.
    assert (Hcols : columns ((fun v => (py_str v, [])) <$> (PStr <$> header))
                    = header).
    { unfold columns. clear.
      induction header as [| h t IH]; simpl; [done | f_equal; exact IH]. }
    assert (H0 : Forall (fun nc : string * list value => length nc.2 = 0%nat)
                   ((fun v => (py_str v, @nil value)) <$> (PStr <$> header))).
    { apply Forall_fmap, Forall_fmap, Forall_forall. done. }
    destruct (writerow_rows header rows _ 0%nat Hne Hcols H0 Hrows)
      as [Hc Hall].
    set (df := fold_left writerow rows _) in *.
    assert (Hdf : df <> []).
    { intros E. rewrite E in Hc. simpl in Hc. congruence. }
    assert (Hh : height df = length rows).
    { destruct df as [| [n c] df']; [done |]. simpl.
      by inversion Hall; subst. }
    exists df. split; [| done].
    unfold read. rewrite decide_True; [done |].
    split; [done |]. split; [by rewrite Hc |]. by rewrite Hh.
  - intros df Hwf. exists df. simpl. unfold read.
    by rewrite decide_True.
Qed.

End SimpleRuntimeLaws.

(** The agreement on all frames gives the agreement within the rows
    inspected. *)
#[export] Instance csv_laws_shape `{R : Runtime} `{!CsvLaws R} :
  CsvShapeLaws R.
Proof.
  split.
  - apply read_csv_wf.
  - apply read_csv_writer.
  - intros df Hwf _. by apply read_csv_write_csv.
Qed.

(** ** The text runtime meets the contracts on shape *)

Module TextRuntimeLaws.
Import TextRuntime.

(** Within the records that are inspected, every column can be read. *)
Lemma read_column_sample fields :
  (length fields <= INFER_SCHEMA_LENGTH)%nat -> is_Some (read_column fields).
Proof.
  intros Hlen. unfold read_column. apply mapM_is_Some.
  apply Forall_forall. intros s Hs. simpl. unfold read_field.
  destruct (String.eqb s "") eqn:Es; [by eexists |].
  destruct (infer_int fields) eqn:E; [| by eexists].
  unfold infer_int in E. cbv zeta in E. rewrite take_ge in E by done.
  apply andb_prop in E as [E _].
  rewrite forallb_forall in E. apply list_elem_of_In in Hs.
  specialize (E s Hs). unfold is_int_field in E. rewrite Es in E.
  destruct (parse_int s); [by eexists | done].
Qed.

Lemma read_named_shape rows (l : list (nat * string)) (df : DataFrame) :
  Forall2 (fun x y => read_named rows x = Some y) l df ->
  columns df = snd <$> l
  /\ Forall (fun nc : string * list value => length nc.2 = length rows) df.
Proof.
  induction 1 as [| [i name] [n cells] l df Hx Hl [IHc IHa]]; [done |].
  unfold read_named in Hx.
  destruct (read_column _) as [cells' |] eqn:Hc; [| done].
  simpl in Hx. injection Hx as <- <-. split.
  - unfold columns in *. rewrite !fmap_cons. simpl. by f_equal.
  - constructor; [| done]. simpl. unfold read_column in Hc.
    apply length_mapM in Hc. by rewrite <- Hc, length_fmap.
Qed.

Lemma numbered_names (header : list string) :
  snd <$> imap pair header = header.
Proof.
  rewrite fmap_imap.
  rewrite (imap_ext _ (const id)) by done.
  by rewrite imap_const, list_fmap_id.
Qed.

(** What is read has the names of the header, in its order, and one cell
    in every column for each record. *)
Lemma read_shape header rows df :
  read (header :: rows) = Some df ->
  header <> [] /\ NoDup header /\ columns df = header
  /\ Forall (fun nc : string * list value => length nc.2 = length rows) df.
Proof.
  unfold read. case_decide as Hok; [| done]. intros E.
  destruct Hok as (Hne & Hnd & _).
  apply mapM_Some_1 in E.
  destruct (read_named_shape rows _ _ E) as [Hc Ha].
  rewrite numbered_names in Hc. done.
Qed.

Lemma height_shape (df : DataFrame) n :
  df <> [] -> Forall (fun nc : string * list value => length nc.2 = n) df ->
  height df = n.
Proof. destruct df as [| [name c] df]; [done |]. by inversion 2. Qed.

(** A table of at most [INFER_SCHEMA_LENGTH] records is read whole. *)
Lemma read_table header rows :
  header <> [] -> NoDup header ->
  Forall (fun r : list string => (length r <= length header)%nat) rows ->
  (length rows <= INFER_SCHEMA_LENGTH)%nat ->
  exists df, read (header :: rows) = Some df
             /\ columns df = header /\ height df = length rows.
Proof.
  intros Hne Hnd Hrows Hlen.
  assert (Hsome : is_Some (read (header :: rows))).
  { unfold read. rewrite decide_True by done.
    apply mapM_is_Some, Forall_forall. intros [i name] _. simpl.
    destruct (read_column_sample ((fun r => default "" (r !! i)) <$> rows))
      as [cells ->]; [by rewrite length_fmap | by eexists]. }
  destruct Hsome as [df Hdf]. exists df. split; [done |].
  destruct (read_shape _ _ _ Hdf) as (_ & _ & Hc & Ha).
  split; [done |]. apply height_shape; [| done].
  intros ->. by rewrite <- Hc in Hne.
Qed.

Lemma writer_file (rows : list (list pyval)) : forall b : Csv,
  fold_left (fun b r => b ++ [row_text r]) rows b = b ++ (row_text <$> rows).
Proof.
  induction rows as [| r rows IH]; intros b; simpl.
  - by rewrite app_nil_r.
  - rewrite IH. by rewrite <- app_assoc.
Qed.

Lemma header_text (header : list string) :
  row_text (PStr <$> header) = header.
Proof.
  unfold row_text. induction header as [| h header IH]; [done |].
  rewrite !fmap_cons. simpl. by f_equal.
Qed.

#[export] Instance csv_shape_laws : CsvShapeLaws runtime.
Proof.
  split.
  - intros b df. simpl. destruct b as [| header rows]; [done |].
    intros Hdf. destruct (read_shape _ _ _ Hdf) as (Hne & Hnd & Hc & Ha).
    assert (Hdf' : df <> []) by (intros ->; by rewrite <- Hc in Hne).
    split; [done |]. split; [by rewrite Hc |].
    by rewrite (height_shape df (length rows)).
  - intros header rows Hne Hnd Hrows Hlen. simpl.
    unfold csv_of. simpl. rewrite writer_file. simpl.
    rewrite header_text.
    destruct (read_table header (row_text <$> rows))
      as (df & Hdf & Hc & Hh); [done | done | | by rewrite length_fmap |].
    { apply Forall_fmap. eapply Forall_impl; [exact Hrows |].
      intros r Hr. simpl. unfold row_text. by rewrite length_fmap, Hr. }
    exists df. by rewrite length_fmap in Hh.
  - intros df (Hne & Hnd & Hall) Hh. simpl. unfold write.
    destruct (read_table (columns df)
                ((fun i =>
                    (fun nc : string * list value =>
                       cell_text (default Null (nc.2 !! i))) <$> df)
                 <$> seq 0 (height df)))
      as (df' & Hdf & Hc & Hh');
      [ | done | | by rewrite length_fmap, length_seq |].
    { unfold columns. by destruct df. }
    { apply Forall_fmap, Forall_forall. intros i _. simpl.
      unfold columns. by rewrite !length_fmap. }
    exists df'. by rewrite length_fmap, length_seq in Hh'.
Qed.

End TextRuntimeLaws.

(** ** The timestamp pass *)

Section TimestampPass.
Context `{R : Runtime}.

(** Any run type but "next" takes the [else] branch: one log record. *)
Lemma update_datetime_skip file_name run w :
  run <> "next" ->
  update_datetime file_name run w
  = (Ok tt,
     mkWorld (fs w) (dirs w) (random w) (urandom w) (clock w) (ticks w)
       (trace w ++ [EvLog LogNoTimestampUpdate])).
Proof.
  intros Hrun. unfold update_datetime.
  apply String.eqb_neq in Hrun. rewrite Hrun. apply logging_info_run.
Qed.

(** A literal broadcast over a frame: the column of that name holds the
    literal in every row, the height and the other columns are kept, and
    the order of the columns too (a missing name comes last). *)
Lemma with_columns_lit_spec (df : DataFrame) name v :
  df <> [] ->
  let df' := with_columns_lit df name v in
  get_column df' name = Some (replicate (height df) v)
  /\ height df' = height df
  /\ (forall other, other <> name ->
        get_column df' other = get_column df other)
  /\ columns df'
     = if decide (name ∈ columns df) then columns df
       else columns df ++ [name].
Proof.
  intros Hne. cbv zeta. unfold with_columns_lit.
  rewrite decide_False by done.
  split; [apply PolarsFacts.get_column_set_eq |].
  split; [apply PolarsFacts.height_set_column;
          [done | apply length_replicate] |].
  split; [intros other Ho; by apply PolarsFacts.get_column_set_ne |].
  case_decide.
  - by apply PolarsFacts.columns_set_existing.
  - by apply PolarsFacts.columns_set_fresh.
Qed.

(** C7: in mode "first" the timestamp pass is a no-op on files: it
    returns normally and every file, the one it was given included, holds
    the bytes it held before. *)
Theorem update_datetime_first_unchanged file_name w :
  exists w',
    update_datetime file_name "first" w = (Ok tt, w')
    /\ fs w' !! file_name = fs w !! file_name
    /\ fs w' = fs w.
Proof.
  eexists. split; [by apply update_datetime_skip |]. by split.
Qed.

(** C9: for every run type other than "next" the timestamp pass returns
    normally, leaves all files as they are, and adds to the trace one log
    record only: no file is read and none is written. *)
Theorem update_datetime_not_next file_name run w :
  run <> "next" ->
  exists w',
    update_datetime file_name run w = (Ok tt, w')
    /\ fs w' = fs w
    /\ trace w' = trace w ++ [EvLog LogNoTimestampUpdate]
    /\ (forall path, EvRead path ∈ trace w' -> EvRead path ∈ trace w)
    /\ (forall path, EvWrite path ∈ trace w' -> EvWrite path ∈ trace w).
Proof.
  intros Hrun. eexists. split; [by apply update_datetime_skip |]. simpl.
  repeat split; intros path; rewrite elem_of_app, list_elem_of_singleton;
    intros [? | ?]; done.
Qed.

End TimestampPass.

(** C1, on a file where the code departs from it.  The file holds one
    record, whose personal number is 05120152553.  The timestamp pass in
    mode "next" returns normally and stamps the record with the second of
    the clock's reading, one day earlier; but the file it writes back
    spells the personal number 5120152553: polars took the column for
    integers when it read the file, and prints it as such.  A column
    other than [accessed_at] is not as it was. *)
Theorem update_datetime_next_rewrites_cells :
  let run :=
    update_datetime (R := TextRuntime.runtime) "batch.csv" "next"
      TextInputs.stamp_world in
  fs TextInputs.stamp_world !! "batch.csv"
  = Some [ [ "person_name"; "personal_number"; "accessed_at";
             "session_duration" ];
           [ "Ana Sofia Lopez"; "05120152553"; "2025-03-14 09:26:53";
             "120" ] ]
  /\ clock_now TextInputs.stamp_world
     = mkdatetime (mkdate 2025 9 23) 10 30 15 250000
  /\ run.1 = Ok tt
  /\ fs run.2 !! "batch.csv"
     = Some [ [ "person_name"; "personal_number"; "accessed_at";
                "session_duration" ];
              [ "Ana Sofia Lopez"; "5120152553";
                "2025-09-22T10:30:15.000000"; "120" ] ]
  /\ (b ← fs run.2 !! "batch.csv";
      TextRuntime.csv_field b "personal_number" 0)
     <> (b ← fs TextInputs.stamp_world !! "batch.csv";
         TextRuntime.csv_field b "personal_number" 0).
Proof.
  cbv zeta. split; [by vm_compute |]. split; [by vm_compute |].
  split; [by vm_compute |]. split; [by vm_compute |].
  vm_compute. discriminate.
Qed.

(** ** The record generator *)

Section RecordGenerator.
Context `{R : Runtime}.

(** C3: in every generated record, [user_name] is [person_name] with its
    spaces removed, lowercased, whatever the sources of randomness hold
    (so it has no space and is a function of [person_name]), and [email]
    is [user_name], an at sign and a domain: it starts with [user_name]
    and the at sign. *)
Theorem generate_record_user_name_email `{!LowerLaws R} fake w :
  exists person_name user_name email domain record fake' w',
    generate_record fake w = (Ok (record, fake'), w')
    /\ record_field "person_name" record = Some (PStr person_name)
    /\ record_field "user_name" record = Some (PStr user_name)
    /\ record_field "email" record = Some (PStr email)
    /\ user_name = str_lower (PyStr.replace PyStr.space "" person_name)
    /\ PyStr.contains PyStr.space user_name = false
    /\ email = user_name +:+ "@" +:+ domain
    /\ PyStr.startswith (user_name +:+ "@") email = true.
Proof.
  destruct (generate_record_run fake w)
    as (p0 & p1 & p2 & p3 & p4 & p5 & p6 & p7 & p8 & p9 & g0 & g1 & g2 & g3
        & fake' & w' & E & _).
  exists p0, (str_lower (PyStr.replace PyStr.space "" p0)).
  exists (str_lower (PyStr.replace PyStr.space "" p0) +:+ "@" +:+ p1), p1.
  eexists _, fake', w'. split; [exact E |].
  repeat split.
  - apply str_lower_space, PyStrFacts.contains_replace_empty.
  - unfold PyStr.startswith.
    rewrite PyStrFacts.append_assoc. apply PyStrFacts.prefix_append.
Qed.

(** C6: in every generated record the four numeric fields are integers
    within their inclusive ranges. *)
Theorem generate_record_ranges `{!RandomLaws R} fake w :
  exists session_duration download_speed upload_speed consumed_traffic
         record fake' w',
    generate_record fake w = (Ok (record, fake'), w')
    /\ record_field "session_duration" record = Some (PInt session_duration)
    /\ 0 <= session_duration <= 36000
    /\ record_field "download_speed" record = Some (PInt download_speed)
    /\ 0 <= download_speed <= 1000
    /\ record_field "upload_speed" record = Some (PInt upload_speed)
    /\ 0 <= upload_speed <= 800
    /\ record_field "consumed_traffic" record = Some (PInt consumed_traffic)
    /\ 0 <= consumed_traffic <= 2000000.
Proof.
  destruct (generate_record_run fake w)
    as (p0 & p1 & p2 & p3 & p4 & p5 & p6 & p7 & p8 & p9 & g0 & g1 & g2 & g3
        & fake' & w' & E & _).
  pose proof (randbelow_range 36001 g0 ltac:(lia)).
  pose proof (randbelow_range 1001 g1 ltac:(lia)).
  pose proof (randbelow_range 801 g2 ltac:(lia)).
  pose proof (randbelow_range 2000001 g3 ltac:(lia)).
  do 4 eexists. eexists _, fake', w'. split; [exact E |].
  repeat split; lia.
Qed.

End RecordGenerator.

(** ** The batch writer *)

Section BatchWriter.
Context `{R : Runtime}.

(** C4: for every path and every row count [rows >= 0] the writer leaves
    at that path the file [csv.writer] makes of the header row, the 15
    fixed column names without [unique_id], followed by exactly [rows]
    records of 15 fields each; with [rows = 0], of the header row alone. *)
Theorem write_to_csv_rows file_path rows w :
  0 <= rows ->
  exists records w',
    write_to_csv file_path rows w = (Ok tt, w')
    /\ fs w' !! file_path = Some (csv_of ((PStr <$> headers) :: records))
    /\ Z.of_nat (length records) = rows
    /\ Forall (fun r : list pyval => length r = length headers) records
    /\ headers
       = [ "person_name"; "user_name"; "email"; "personal_number";
           "birth_date"; "address"; "phone"; "mac_address"; "ip_address";
           "iban"; "accessed_at"; "session_duration"; "download_speed";
           "upload_speed"; "consumed_traffic" ]
    /\ length headers = 15%nat
    /\ ("unique_id" ∉ headers)
    /\ (rows = 0 ->
          fs w' !! file_path = Some (csv_of [PStr <$> headers])).
Proof.
  intros Hrows.
  destruct (write_to_csv_run file_path rows w)
    as (records & w' & E & Hlen & Hall & Hfs & _).
  exists records, w'. split; [exact E |].
  split; [by rewrite Hfs, lookup_insert_eq |].
  split; [lia |]. split; [exact Hall |]. split; [reflexivity |].
  split; [reflexivity |].
  split; [apply (bool_decide_unpack _); by vm_compute |].
  intros ->. simpl in Hlen. destruct records; [| done].
  by rewrite Hfs, lookup_insert_eq.
Qed.

End BatchWriter.

(** ** The tag pass *)

Section TagPass.
Context `{R : Runtime}.

(** C2, amended: on a file that polars reads as a frame [df] with no
    column named [unique_id], the tag pass writes back [df] followed by
    one new last column [unique_id], which holds the next identifiers of
    the system, one for each row, whatever the rows contain; the columns
    of [df] with the values read, its height and the order of its rows
    are kept as they are.  This is about the frame; how [write_csv]
    spells its cells in the file is the runtime's (X22 shows a cell that
    comes back spelled otherwise). *)
Theorem add_id_appends file_name w df :
  csv_file w file_name df -> "unique_id" ∉ columns df ->
  exists ids df' w',
    add_id file_name w = (Ok tt, w')
    /\ ids = (uuid_draws (height df) (urandom w)).1
    /\ length ids = height df
    /\ df' = df ++ [("unique_id", Utf8 <$> ids)]
    /\ fs w' = <[file_name := write_csv df']> (fs w)
    /\ height df' = height df
    /\ columns df' = columns df ++ ["unique_id"]
    /\ (forall other, other <> "unique_id" ->
          get_column df' other = get_column df other).
Proof.
  intros Hfile Hfresh.
  pose proof (add_id_run file_name w df Hfile) as Hrun.
  destruct Hfile as (b & Hb & Hread & Hne & Hnd & Hall).
  set (ids := (uuid_draws (height df) (urandom w)).1) in *.
  assert (Hlen : length (Utf8 <$> ids) = height df)
    by (unfold ids; by rewrite length_fmap, uuid_draws_length).
  exists ids, (df ++ [("unique_id", Utf8 <$> ids)]). eexists.
  split; [exact Hrun |]. simpl.
  rewrite <- (PolarsFacts.set_column_fresh df) by done.
  split; [done |]. split; [by rewrite length_fmap in Hlen |].
  split; [done |]. split; [done |].
  split; [by apply PolarsFacts.height_set_column |].
  split; [by apply PolarsFacts.columns_set_fresh |].
  intros other Ho. by apply PolarsFacts.get_column_set_ne.
Qed.

End TagPass.

(** C2 as it is worded, for every file, fails on a file that has a column
    [unique_id] already: the pass succeeds and replaces that column where
    it stands; no column is appended. *)
Lemma add_id_existing_column :
  csv_file Inputs.tagged_world "tagged.csv" Inputs.tagged_frame
  /\ (add_id "tagged.csv" Inputs.tagged_world).1 = Ok tt
  /\ fs (add_id "tagged.csv" Inputs.tagged_world).2 !! "tagged.csv"
     = Some [ ("unique_id", [Utf8 "3f2b8c1e-7a4d-4e5f-9b6a-000000000000"]);
              ("visits", [Int64 7]) ]
  /\ ~ (exists ids : list string,
          fs (add_id "tagged.csv" Inputs.tagged_world).2 !! "tagged.csv"
          = Some (write_csv (Inputs.tagged_frame ++ [("unique_id", Utf8 <$> ids)]))).
Proof.
  split.
  { exists Inputs.tagged_frame. split; [by vm_compute |]. split; [by vm_compute |].
    apply (bool_decide_unpack _). by vm_compute. }
  split; [by vm_compute |].
  assert (E : fs (add_id "tagged.csv" Inputs.tagged_world).2 !! "tagged.csv"
              = Some [ ("unique_id",
                        [Utf8 "3f2b8c1e-7a4d-4e5f-9b6a-000000000000"]);
                       ("visits", [Int64 7]) ]) by (by vm_compute).
  split; [exact E |].
  intros [ids Hids]. pose proof (eq_trans (eq_sym E) Hids) as Hc.
  cbv in Hc. discriminate Hc.
Qed.

(** ** The run controller *)

Section RunController.
Context `{R : Runtime}.

Lemma date_today_run w :
  date_today w
  = (Ok (dt_date (clock_now w)),
     mkWorld (fs w) (dirs w) (random w) (urandom w) (clock w) (S (ticks w))
       (trace w)).
Proof. reflexivity. Qed.

Lemma FIRST_DATE_valid : valid_date FIRST_DATE.
Proof. repeat split; vm_compute; congruence. Qed.

(** C5: the controller reads the date once.  On the first date,
    2025-09-22, the row count is 300372 and the run type "first"; on any
    other date the row count is the draw of [random.randint(0, 1101)], an
    integer from 0 to 1101, and the run type "next". *)
Theorem main_decide_policy `{!RandomLaws R} w :
  valid_date (dt_date (clock_now w)) ->
  exists records run_type w',
    main_decide w = (Ok (records, run_type), w')
    /\ (dt_date (clock_now w) = FIRST_DATE ->
          records = 300372 /\ run_type = "first")
    /\ (dt_date (clock_now w) <> FIRST_DATE ->
          records = 0 + (randbelow (1101 + 1 - 0) (random w)).1
          /\ 0 <= records <= 1101 /\ run_type = "next").
Proof.
  intros Hvalid. unfold main_decide.
  erewrite bind_run by apply date_today_run.
  change "2025-09-22" with (isoformat FIRST_DATE).
  rewrite (PyDatetimeSpec.isoformat_eqb _ _ Hvalid FIRST_DATE_valid).
  case_bool_decide as Hd.
  - erewrite bind_run by (apply random_randint_run; lia).
    do 3 eexists. split; [reflexivity |]. split; [| done].
    intros _. split; [| done]. simpl.
    pose proof (randbelow_range (300372 + 1 - 300372) (random w)
                  ltac:(lia)).
    lia.
  - erewrite bind_run by (apply random_randint_run; lia).
    do 3 eexists. split; [reflexivity |]. split; [done |].
    intros _. simpl.
    pose proof (randbelow_range (1101 + 1 - 0) (random w) ltac:(lia)).
    repeat split; lia.
Qed.

End RunController.

(** ** The whole run *)

Section Pipeline.
Context `{R : Runtime} `{!CsvShapeLaws R}.

Lemma headers_NoDup : NoDup headers.
Proof. apply (bool_decide_unpack _). by vm_compute. Qed.

Lemma unique_id_fresh : "unique_id" ∉ headers.
Proof. apply (bool_decide_unpack _). by vm_compute. Qed.

Lemma accessed_at_header : "accessed_at" ∈ headers ++ ["unique_id"].
Proof. apply (bool_decide_unpack _). by vm_compute. Qed.

(** What [write_to_csv] wrote reads as a frame of the header's columns,
    one row for each record. *)
Lemma written_file_reads (records : list (list pyval)) w file_path :
  fs w !! file_path = Some (csv_of ((PStr <$> headers) :: records)) ->
  Forall (fun r : list pyval => length r = 15%nat) records ->
  (length records <= INFER_SCHEMA_LENGTH)%nat ->
  exists df, csv_file w file_path df
             /\ columns df = headers /\ height df = length records.
Proof.
  intros Hfs Hall Hlen.
  destruct (shape_read_csv_writer headers records)
    as (df & Hread & Hc & Hh);
    [done | apply headers_NoDup | exact Hall | exact Hlen |].
  exists df. split; [| done].
  exists (csv_of ((PStr <$> headers) :: records)).
  split; [exact Hfs |]. split; [exact Hread |].
  by eapply shape_read_csv_wf.
Qed.

(** What a pass wrote, of at most [INFER_SCHEMA_LENGTH] rows, reads as a
    frame of the same columns and height. *)
Lemma rewritten_sample_reads (df : DataFrame) w file_path :
  fs w !! file_path = Some (write_csv df) -> wf df ->
  (height df <= INFER_SCHEMA_LENGTH)%nat ->
  exists df', csv_file w file_path df'
              /\ columns df' = columns df /\ height df' = height df.
Proof.
  intros Hfs Hwf Hlen.
  destruct (shape_read_csv_write_csv df Hwf Hlen)
    as (df' & Hread & Hc & Hh).
  exists df'. split; [| done].
  exists (write_csv df). split; [exact Hfs |]. split; [exact Hread |].
  by eapply shape_read_csv_wf.
Qed.

(** The three steps on a fresh batch of at most [INFER_SCHEMA_LENGTH]
    rows, in mode "next".  The writer's providers read the clock, so the
    reading of the timestamp pass is a later one, number [k]; it is the
    last of the run. *)
Lemma main_steps_next_run output_file records w :
  0 <= records <= Z.of_nat INFER_SCHEMA_LENGTH ->
  (forall k, (ticks w <= k)%nat -> valid_datetime (clock w k)) ->
  (forall k, (ticks w <= k)%nat -> 1 < toordinal (dt_date (clock w k))) ->
  exists k ts df_read df w',
    main_steps output_file records "next" w = (Ok tt, w')
    /\ (ticks w <= k)%nat /\ ticks w' = S k
    /\ sub_days (replace_microsecond (clock w k) 0) 1 = Some ts
    /\ microsecond ts = 0
    /\ seconds_of ts = seconds_of (clock w k) - 86400
    /\ wf df_read
    /\ columns df_read = headers ++ ["unique_id"]
    /\ height df_read = Z.to_nat records
    /\ df = with_columns_lit df_read "accessed_at" (Datetime ts)
    /\ fs w' !! output_file = Some (write_csv df).
Proof.
  intros Hrec Hvalid Hord. unfold main_steps.
  destruct (write_to_csv_run output_file records w)
    as (recs & w1 & E1 & Hlen1 & Hall1 & Hfs1 & Hc1 & Ht1).
  erewrite bind_run by exact E1.
  destruct (written_file_reads recs w1 output_file)
    as (df0 & Hfile0 & Hcols0 & Hh0);
    [by rewrite Hfs1, lookup_insert_eq | exact Hall1 | lia |].
  pose proof (add_id_run output_file w1 df0 Hfile0) as E2.
  erewrite bind_run by exact E2.
  set (df1 := set_column "unique_id" _ df0) in *.
  match type of E2 with _ = (_, ?w) => set (w2 := w) in * end.
  assert (Hwf0 : wf df0) by (destruct Hfile0 as (? & ? & ? & ?); done).
  assert (Hlen_ids : length (Utf8 <$> (uuid_draws (height df0) (urandom w1)).1)
                     = height df0)
    by (by rewrite length_fmap, uuid_draws_length).
  assert (Hwf1 : wf df1) by (by apply PolarsFacts.wf_set_column).
  assert (Hcols1 : columns df1 = headers ++ ["unique_id"]).
  { unfold df1. rewrite PolarsFacts.columns_set_fresh; rewrite Hcols0;
      [done | apply unique_id_fresh]. }
  assert (Hh1 : height df1 = Z.to_nat records).
  { unfold df1. rewrite PolarsFacts.height_set_column;
      [lia | apply Hwf0 | exact Hlen_ids]. }
  destruct (rewritten_sample_reads df1 w2 output_file)
    as (df2 & Hfile2 & Hcols2 & Hh2);
    [by unfold w2; simpl; rewrite lookup_insert_eq | exact Hwf1
     | rewrite Hh1; lia |].
  destruct (update_datetime_run output_file w2 df2 Hfile2)
    as (ts & Hts & Hus & Hsec & E3).
  { unfold clock_now, w2. simpl. rewrite Hc1. by apply Hvalid. }
  { unfold clock_now, w2. simpl. rewrite Hc1. by apply Hord. }
  assert (Hnow : clock_now w2 = clock w (ticks w1))
    by (unfold clock_now, w2; simpl; by rewrite Hc1).
  rewrite Hnow in Hts, Hsec.
  exists (ticks w1), ts, df2.
  exists (with_columns_lit df2 "accessed_at" (Datetime ts)).
  eexists. split; [exact E3 |].
  split; [exact Ht1 |]. split; [reflexivity |].
  split; [done |]. split; [done |]. split; [done |].
  split; [by destruct Hfile2 as (? & ? & ? & ?) |].
  split; [congruence |]. split; [congruence |]. split; [done |].
  cbn [fs]. by rewrite lookup_insert_eq.
Qed.

(** C8, amended: the three steps with 3 rows in mode "next" succeed and
    leave a file whose frame has the 15 header columns followed by
    [unique_id], in that order, and 3 rows; the 3 cells of [accessed_at]
    hold one timestamp [ts] with no fraction of a second.  [ts] is exactly
    86400 seconds before the second of the reading the timestamp pass
    takes of the clock, hence earlier than it; that reading, number [k],
    is the last of the run and comes after those the writer's providers
    took, so on a clock that does not go back [ts] is no earlier than one
    day before the reading at which the run began. *)
Theorem main_steps_three_next output_file w :
  (forall k, (ticks w <= k)%nat -> valid_datetime (clock w k)) ->
  (forall k, (ticks w <= k)%nat -> 1 < toordinal (dt_date (clock w k))) ->
  exists k ts df w',
    main_steps output_file 3 "next" w = (Ok tt, w')
    /\ fs w' !! output_file = Some (write_csv df)
    /\ columns df = headers ++ ["unique_id"]
    /\ length (columns df) = 16%nat
    /\ height df = 3%nat
    /\ get_column df "accessed_at" = Some (replicate 3 (Datetime ts))
    /\ microsecond ts = 0
    /\ (ticks w <= k)%nat /\ ticks w' = S k
    /\ seconds_of ts = seconds_of (clock w k) - 86400
    /\ seconds_of ts < seconds_of (clock w k)
    /\ ((forall i j, (i <= j)%nat ->
           seconds_of (clock w i) <= seconds_of (clock w j)) ->
        seconds_of (clock_now w) - 86400 <= seconds_of ts).
Proof.
  intros Hvalid Hord.
  destruct (main_steps_next_run output_file 3 w)
    as (k & ts & df2 & df & w' & E & Hk & Hlast & Hts & Hus & Hsec & Hwf
        & Hcols & Hh & Hdf & Hfs);
    [unfold INFER_SCHEMA_LENGTH; lia | done | done |].
  destruct (with_columns_lit_spec df2 "accessed_at" (Datetime ts))
    as (Hcol & Hheight & _ & Hcolumns); [apply Hwf |].
  rewrite <- Hdf in Hcol, Hheight, Hcolumns.
  rewrite decide_True in Hcolumns
    by (rewrite Hcols; apply accessed_at_header).
  exists k, ts, df, w'. split; [exact E |]. split; [exact Hfs |].
  split; [congruence |]. split; [by rewrite Hcolumns, Hcols |].
  split; [by rewrite Hheight, Hh |].
  split; [by rewrite Hcol, Hh |]. split; [exact Hus |].
  split; [exact Hk |]. split; [exact Hlast |].
  split; [exact Hsec |]. split; [lia |].
  intros Hmono. specialize (Hmono _ _ Hk). unfold clock_now. lia.
Qed.

End Pipeline.

(** C8 as it is worded fails on a run during which time passes.  On a
    clock that is a second later at each reading, the run begins at
    10:30:15 of 2025-09-23; the providers of the three records read the
    clock six times, so the timestamp pass reads 10:30:21 and stamps the
    rows with 10:30:21 of the day before: one day less six seconds before
    the beginning of the run. *)
Lemma main_steps_three_next_late :
  let run :=
    main_steps (R := SimpleRuntime.runtime) Inputs.batch_path 3 "next"
      SimpleRuntime.world0 in
  let ts := mkdatetime (mkdate 2025 9 22) 10 30 21 0 in
  clock_now SimpleRuntime.world0
  = mkdatetime (mkdate 2025 9 23) 10 30 15 250000
  /\ run.1 = Ok tt
  /\ (df ← fs run.2 !! Inputs.batch_path; get_column df "accessed_at")
     = Some (replicate 3 (Datetime ts))
  /\ seconds_of ts = seconds_of (clock_now SimpleRuntime.world0) - 86400 + 6
  /\ seconds_of ts <> seconds_of (clock_now SimpleRuntime.world0) - 86400.
Proof.
  cbv zeta. split; [by vm_compute |]. split; [by vm_compute |].
  split; [by vm_compute |]. split; [by vm_compute |]. by vm_compute.
Qed.

(** ** A file with a header and no rows *)

Section HeaderOnly.
Context `{R : Runtime} `{!CsvLaws R}.

(** A literal broadcast over no rows changes nothing in a frame that has
    the column. *)
Lemma with_columns_lit_no_rows (df : DataFrame) name v :
  wf df -> height df = 0%nat -> name ∈ columns df ->
  with_columns_lit df name v = df.
Proof.
  intros (Hne & _ & Hall) Hh Hin. unfold with_columns_lit.
  rewrite decide_False by done. rewrite Hh in *. simpl. clear Hne Hh.
  induction Hall as [| [n c] l Hc Hl IH]; simpl.
  - inversion Hin.
  - simpl in Hc. apply nil_length_inv in Hc. subst c.
    case_decide as E; [by subst |].
    f_equal. apply IH. unfold columns in Hin. simpl in Hin.
    apply elem_of_cons in Hin as [-> | Hin]; [congruence | exact Hin].
Qed.


End HeaderOnly.

(** ** The theorems at work on the simple runtime *)

Module Examples.
Import SimpleRuntime SimpleRuntimeLaws Inputs.

(** The calendar on known dates. *)
Example toordinal_first_date : toordinal FIRST_DATE = 739516.
Proof. reflexivity. Qed.

Example toordinal_max : toordinal (mkdate 9999 12 31) = MAXORDINAL.
Proof. reflexivity. Qed.

Example fromordinal_2000 : fromordinal 730120 = mkdate 2000 1 1.
Proof. reflexivity. Qed.

Example isoformat_first_date : isoformat FIRST_DATE = "2025-09-22".
Proof. reflexivity. Qed.

Example day_before_march_first :
  sub_days (mkdatetime (mkdate 2024 3 1) 0 0 5 0) 1
  = Some (mkdatetime (mkdate 2024 2 29) 0 0 5 0).
Proof. reflexivity. Qed.

Example day_before_new_year :
  sub_days (mkdatetime (mkdate 2026 1 1) 23 59 59 0) 1
  = Some (mkdatetime (mkdate 2025 12 31) 23 59 59 0).
Proof. reflexivity. Qed.

Example day_before_day_one :
  sub_days (mkdatetime (mkdate 1 1 1) 12 0 0 0) 1 = None.
Proof. reflexivity. Qed.

(** The strings of a record. *)
Example user_name_of_name :
  str_lower (PyStr.replace PyStr.space "" "Maria Jose Garcia Diaz")
  = "mariajosegarciadiaz".
Proof. reflexivity. Qed.

Example country_of_locale : PyStr.split_last PyStr.underscore "es_MX" = "MX".
Proof. reflexivity. Qed.

(** A whole run on 2025-09-23, which is not the first date: the trace of
    what the script did. *)
Example main_trace :
  (main world0).1 = Ok tt
  /\ trace (main world0).2
     = [ EvLog (LogStarted (mkdate 2025 9 23));
         EvMakedirs "data"; EvLog (LogCreatedDirectory "data");
         EvLog (LogCreatedData "MX"); EvOpen batch_path;
         EvLog (LogWritten 42);
         EvRead batch_path; EvWrite batch_path; EvLog LogAddedUUID;
         EvRead batch_path; EvWrite batch_path; EvLog LogUpdatedTimestamp;
         EvLog (LogFinished (mkdate 2025 9 23)) ].
Proof. split; by vm_compute. Qed.

(** The three steps in mode "first" keep the timestamps of the records. *)
Example first_run_keeps_accessed_at :
  get_column
    (default [] (fs (main_steps batch_path 2 "first" world0).2 !! batch_path))
    "accessed_at"
  = Some [ Utf8 "2025-03-14 09:26:53"; Utf8 "2025-03-14 09:26:53" ].
Proof. by vm_compute. Qed.

Lemma batch_file : csv_file batch_world batch_path batch_frame.
Proof.
  exists batch_frame. split; [by vm_compute |]. split; [by vm_compute |].
  apply (bool_decide_unpack _). by vm_compute.
Defined.

Lemma empty_batch_file :
  csv_file empty_batch_world batch_path empty_batch_frame.
Proof.
  exists empty_batch_frame. split; [by vm_compute |].
  split; [by vm_compute |]. apply (bool_decide_unpack _). by vm_compute.
Defined.

Lemma clock0_valid (w : World) :
  clock w = clock0 -> valid_datetime (clock_now w).
Proof.
  intros E. unfold clock_now. rewrite E. unfold clock0, valid_datetime.
  simpl. pose proof (Nat.mod_upper_bound (ticks w) 40 ltac:(lia)).
  repeat split; try lia; vm_compute; congruence.
Defined.

Lemma clock0_ordinal (w : World) :
  clock w = clock0 -> 1 < toordinal (dt_date (clock_now w)).
Proof. intros E. unfold clock_now. rewrite E. by vm_compute. Defined.

Lemma update_datetime_not_next_witness :
  exists w',
    update_datetime batch_path "weekly" batch_world = (Ok tt, w')
    /\ fs w' = fs batch_world
    /\ trace w' = trace batch_world ++ [EvLog LogNoTimestampUpdate]
    /\ (forall path, EvRead path ∈ trace w' -> EvRead path ∈ trace batch_world)
    /\ (forall path,
          EvWrite path ∈ trace w' -> EvWrite path ∈ trace batch_world).
Proof.
  apply (update_datetime_not_next batch_path "weekly" batch_world).
  by vm_compute.
Defined.

Lemma add_id_appends_witness :
  exists ids df' w',
    add_id batch_path batch_world = (Ok tt, w')
    /\ ids = (uuid_draws (height batch_frame) (urandom batch_world)).1
    /\ length ids = height batch_frame
    /\ df' = batch_frame ++ [("unique_id", Utf8 <$> ids)]
    /\ fs w' = <[batch_path := write_csv df']> (fs batch_world)
    /\ height df' = height batch_frame
    /\ columns df' = columns batch_frame ++ ["unique_id"]
    /\ (forall other, other <> "unique_id" ->
          get_column df' other = get_column batch_frame other).
Proof.
  apply (add_id_appends batch_path batch_world batch_frame).
  - exact batch_file.
  - apply (bool_decide_unpack _). by vm_compute.
Defined.

Lemma generate_record_user_name_email_witness :
  exists person_name user_name email domain record fake' w',
    generate_record (0%nat : Faker) world0 = (Ok (record, fake'), w')
    /\ record_field "person_name" record = Some (PStr person_name)
    /\ record_field "user_name" record = Some (PStr user_name)
    /\ record_field "email" record = Some (PStr email)
    /\ user_name = str_lower (PyStr.replace PyStr.space "" person_name)
    /\ PyStr.contains PyStr.space user_name = false
    /\ email = user_name +:+ "@" +:+ domain
    /\ PyStr.startswith (user_name +:+ "@") email = true.
Proof.
  exact (generate_record_user_name_email (R := runtime)
           (LowerLaws0 := lower_laws) 0%nat world0).
Defined.

Lemma generate_record_ranges_witness :
  exists session_duration download_speed upload_speed consumed_traffic
         record fake' w',
    generate_record (0%nat : Faker) world0 = (Ok (record, fake'), w')
    /\ record_field "session_duration" record = Some (PInt session_duration)
    /\ 0 <= session_duration <= 36000
    /\ record_field "download_speed" record = Some (PInt download_speed)
    /\ 0 <= download_speed <= 1000
    /\ record_field "upload_speed" record = Some (PInt upload_speed)
    /\ 0 <= upload_speed <= 800
    /\ record_field "consumed_traffic" record = Some (PInt consumed_traffic)
    /\ 0 <= consumed_traffic <= 2000000.
Proof.
  exact (generate_record_ranges (R := runtime) (RandomLaws0 := random_laws)
           0%nat world0).
Defined.

Lemma write_to_csv_rows_witness :
  0 <= 2
  /\ exists records w',
       write_to_csv batch_path 2 world0 = (Ok tt, w')
       /\ fs w' !! batch_path = Some (csv_of ((PStr <$> headers) :: records))
       /\ Z.of_nat (length records) = 2
       /\ Forall (fun r : list pyval => length r = length headers) records
       /\ headers
          = [ "person_name"; "user_name"; "email"; "personal_number";
              "birth_date"; "address"; "phone"; "mac_address"; "ip_address";
              "iban"; "accessed_at"; "session_duration"; "download_speed";
              "upload_speed"; "consumed_traffic" ]
       /\ length headers = 15%nat
       /\ ("unique_id" ∉ headers)
       /\ (2 = 0 -> fs w' !! batch_path = Some (csv_of [PStr <$> headers])).
Proof.
  split; [lia |]. apply (write_to_csv_rows batch_path 2 world0). lia.
Defined.

Lemma main_decide_policy_witness :
  valid_date (dt_date (clock_now world0))
  /\ exists records run_type w',
       main_decide world0 = (Ok (records, run_type), w')
       /\ (dt_date (clock_now world0) = FIRST_DATE ->
             records = 300372 /\ run_type = "first")
       /\ (dt_date (clock_now world0) <> FIRST_DATE ->
             records = 0 + (randbelow (1101 + 1 - 0) (random world0)).1
             /\ 0 <= records <= 1101 /\ run_type = "next").
Proof.
  assert (H : valid_date (dt_date (clock_now world0)))
    by (repeat split; vm_compute; congruence).
  split; [exact H |].
  exact (main_decide_policy (R := runtime) (RandomLaws0 := random_laws)
           world0 H).
Defined.

Lemma clock0_valid_at (k : nat) : valid_datetime (clock0 k).
Proof.
  unfold clock0, valid_datetime. simpl.
  pose proof (Nat.mod_upper_bound k 40 ltac:(lia)).
  repeat split; try lia; vm_compute; congruence.
Defined.

Lemma clock0_ordinal_at (k : nat) : 1 < toordinal (dt_date (clock0 k)).
Proof. by vm_compute. Defined.

Lemma main_steps_three_next_witness :
  exists k ts df w',
    main_steps batch_path 3 "next" world0 = (Ok tt, w')
    /\ fs w' !! batch_path = Some (write_csv df)
    /\ columns df = headers ++ ["unique_id"]
    /\ length (columns df) = 16%nat
    /\ height df = 3%nat
    /\ get_column df "accessed_at" = Some (replicate 3 (Datetime ts))
    /\ microsecond ts = 0
    /\ (ticks world0 <= k)%nat /\ ticks w' = S k
    /\ seconds_of ts = seconds_of (clock world0 k) - 86400
    /\ seconds_of ts < seconds_of (clock world0 k)
    /\ ((forall i j, (i <= j)%nat ->
           seconds_of (clock world0 i) <= seconds_of (clock world0 j)) ->
        seconds_of (clock_now world0) - 86400 <= seconds_of ts).
Proof.
  apply (main_steps_three_next (R := runtime) batch_path world0).
  - intros k _. apply clock0_valid_at.
  - intros k _. apply clock0_ordinal_at.
Defined.


End Examples.

(** * More of the script *)

(** ** Directories and the data source *)

Section Directories.
Context `{R : Runtime}.

Lemma makedirs_made_last fuel there name :
  exists above, makedirs_made fuel there name = above ++ [name].
Proof.
  destruct fuel as [| fuel]; simpl; [by exists [] |].
  destruct (_ && _); [by eexists | by exists []].
Qed.

Lemma makedirs_made_name fuel there name :
  name ∈ makedirs_made fuel there name.
Proof.
  destruct (makedirs_made_last fuel there name) as [above ->]. set_solver.
Qed.

(** [os.makedirs] looks above the directory it is to make: a missing
    parent is made too. *)
Lemma makedirs_made_parent there name :
  name <> "" ->
  let head := dirname name in
  head = "" \/ head = name \/ there head = true
  \/ head ∈ makedirs_made (String.length name) there name.
Proof.
  intros Hname. cbv zeta.
  destruct name as [| c name]; [done |]. cbn [String.length makedirs_made].
  set (head := dirname (String c name)).
  destruct (String.eqb_spec head ""); [by left |].
  destruct (String.eqb_spec head (String c name)); [by right; left |].
  destruct (there head); [by right; right; left |].
  right; right; right. simpl. apply elem_of_app. left.
  apply makedirs_made_name.
Qed.

(** The steps of [create_directories_if_not_exist], by case. *)
Lemma create_directories_cases file_path w :
  let directory := dirname file_path in
  create_directories_if_not_exist file_path w
  = if String.eqb directory "" || path_exists w directory
    then (Ok tt, w)
    else (Ok tt,
          mkWorld (fs w)
            (list_to_set
               (makedirs_made (String.length directory) (path_exists w)
                  directory)
             ∪ dirs w)
            (random w) (urandom w) (clock w) (ticks w)
            (trace w ++ [EvMakedirs directory]
               ++ [EvLog (LogCreatedDirectory directory)])).
Proof.
  cbv zeta. unfold create_directories_if_not_exist.
  unfold os_path_exists, os_makedirs, logging_info, emit, mbind, M_bind, mret,
    M_ret.
  destruct (String.eqb (dirname file_path) ""); simpl; [done |].
  destruct (path_exists _ _); simpl; [done |]. by rewrite <- app_assoc.
Qed.

(** X1: what [create_directories_if_not_exist] does to the directories.
    When the path has no parent, or something stands at the parent path
    already, be it a directory or a file, nothing is made and nothing
    logged: the world is left as it was.  Otherwise [os.makedirs] is
    called.  Where no regular file stands at the parent of a directory it
    is to make (the real call raises there), the parent of the path is a
    directory afterwards, and so is its own parent unless it has none or
    something stood there; only what [os.makedirs] made is new; no file
    is changed; the trace gains the call and one log record. *)
Theorem create_directories_ensures file_path w :
  let directory := dirname file_path in
  let made :=
    makedirs_made (String.length directory) (path_exists w) directory in
  (directory = "" \/ path_exists w directory = true ->
     create_directories_if_not_exist file_path w = (Ok tt, w))
  /\ (directory <> "" /\ path_exists w directory = false
      /\ (forall d, d ∈ made -> fs w !! dirname d = None) ->
        exists w',
          create_directories_if_not_exist file_path w = (Ok tt, w')
          /\ fs w' = fs w
          /\ directory ∈ dirs w'
          /\ (dirname directory = "" \/ dirname directory = directory
              \/ dirname directory ∈ dirs w')
          /\ (forall d, d ∈ dirs w' <-> d ∈ dirs w \/ d ∈ made)
          /\ trace w'
             = trace w ++ [ EvMakedirs directory;
                            EvLog (LogCreatedDirectory directory) ]).
Proof.
  cbv zeta. rewrite create_directories_cases. cbv zeta. split.
  - intros [E | E].
    + apply String.eqb_eq in E. by rewrite E.
    + rewrite E. by rewrite orb_true_r.
  - intros (E & Hex & Hfree). apply String.eqb_neq in E as E'.
    rewrite E', Hex. simpl.
    eexists. split; [reflexivity |]. simpl. split; [done |].
    assert (Hdir : dirname file_path
                   ∈ makedirs_made (String.length (dirname file_path))
                       (path_exists w) (dirname file_path))
      by apply makedirs_made_name.
    split.
    { apply elem_of_union. left. by apply elem_of_list_to_set. }
    split.
    { destruct (makedirs_made_parent (path_exists w) (dirname file_path) E)
        as [H | [H | [H | H]]]; [by left | by right; left | |].
      - (* something stands at the parent: a directory, for no file does *)
        right; right. apply elem_of_union. right.
        unfold path_exists in H. apply bool_decide_eq_true_1 in H.
        destruct H as [H | [b H]]; [exact H |].
        by rewrite (Hfree _ Hdir) in H.
      - right; right. apply elem_of_union. left.
        by apply elem_of_list_to_set. }
    split; [| done].
    intros d. rewrite elem_of_union, elem_of_list_to_set. tauto.
Qed.

(** X2: calling [create_directories_if_not_exist] again on the same path
    does nothing: the second call leaves the world of the first as it
    is. *)
Theorem create_directories_twice file_path w :
  exists w1,
    create_directories_if_not_exist file_path w = (Ok tt, w1)
    /\ create_directories_if_not_exist file_path w1 = (Ok tt, w1).
Proof.
  destruct (String.eqb_spec (dirname file_path) "") as [E | E].
  - exists w. rewrite !create_directories_cases. cbv zeta.
    apply String.eqb_eq in E. by rewrite E.
  - rewrite (create_directories_cases file_path w). cbv zeta.
    apply String.eqb_neq in E. rewrite E. simpl.
    destruct (path_exists w (dirname file_path)) eqn:Hex.
    + exists w. split; [done |]. rewrite create_directories_cases. cbv zeta.
      by rewrite E, Hex.
    + eexists. split; [reflexivity |]. rewrite create_directories_cases.
      cbv zeta. rewrite E. simpl.
      unfold path_exists at 1. rewrite bool_decide_eq_true_2; [done |].
      left. simpl. apply elem_of_union. left. apply elem_of_list_to_set.
      apply makedirs_made_name.
Qed.

End Directories.

Module PyStrMore.

Lemma append_empty_r (s : string) : s +:+ "" = s.
Proof.
  induction s as [| c s IH]; [done |].
  change (String c (s +:+ "") = String c s). by rewrite IH.
Qed.

Lemma contains_app c s1 s2 :
  PyStr.contains c (s1 +:+ s2) = PyStr.contains c s1 || PyStr.contains c s2.
Proof.
  induction s1 as [| a s1 IH]; [done |].
  change (Ascii.eqb a c || PyStr.contains c (s1 +:+ s2)
          = Ascii.eqb a c || PyStr.contains c s1 || PyStr.contains c s2).
  rewrite IH. by rewrite orb_assoc.
Qed.

(** A replacement that does not hold the character leaves none of it. *)
Lemma contains_replace c new s :
  PyStr.contains c new = false ->
  PyStr.contains c (PyStr.replace c new s) = false.
Proof.
  intros Hnew. induction s as [| a s IH]; simpl; [done |].
  destruct (Ascii.eqb a c) eqn:E.
  - by rewrite contains_app, Hnew, IH.
  - simpl. by rewrite E, IH.
Qed.

Lemma split_last_from_no_sep sep s : forall acc,
  PyStr.contains sep acc = false ->
  PyStr.contains sep (PyStr.split_last_from sep acc s) = false.
Proof.
  induction s as [| c s IH]; intros acc Hacc; simpl; [done |].
  destruct (Ascii.eqb c sep) eqn:E.
  - by apply IH.
  - apply IH. rewrite contains_app, Hacc. simpl. by rewrite E.
Qed.

Lemma split_last_from_whole sep s : forall acc,
  PyStr.contains sep s = false ->
  PyStr.split_last_from sep acc s = acc +:+ s.
Proof.
  induction s as [| c s IH]; intros acc Hs; simpl.
  - by rewrite append_empty_r.
  - simpl in Hs. apply orb_false_elim in Hs as [Hc Hs]. rewrite Hc.
    rewrite IH by done. by rewrite <- PyStrFacts.append_assoc.
Qed.

End PyStrMore.

Section DataSource.
Context `{R : Runtime}.

(** X3: [create_data] logs one record and then builds the generator.
    The country the record names is the part of the locale after its last
    underscore: it holds no underscore, and it is the whole locale when
    the locale has none.  With a locale Faker knows, "es_MX" among them,
    the generator is returned; with any other, [AttributeError] is raised
    once the record is logged.  No file is changed and the [random] module
    is not touched, either way. *)
Theorem create_data_logs_country locale w :
  exists country w',
    (create_data locale w).2 = w'
    /\ trace w' = trace w ++ [EvLog (LogCreatedData country)]
    /\ country = PyStr.split_last PyStr.underscore locale
    /\ PyStr.contains PyStr.underscore country = false
    /\ (PyStr.contains PyStr.underscore locale = false -> country = locale)
    /\ fs w' = fs w /\ random w' = random w
    /\ (create_data locale w).1
       = match (Faker_new locale (urandom w)).1 with
         | Some fake => Ok fake
         | None => Raise AttributeError
         end
    /\ (locale = "es_MX" -> exists fake, (create_data locale w).1 = Ok fake).
Proof.
  rewrite create_data_cases. cbv zeta.
  exists (PyStr.split_last PyStr.underscore locale). eexists.
  split; [reflexivity |].
  split; [by destruct (Faker_new locale (urandom w)).1 |].
  split; [done |].
  split; [by apply PyStrMore.split_last_from_no_sep |].
  split.
  { intros Hnone. unfold PyStr.split_last.
    by rewrite PyStrMore.split_last_from_whole. }
  split; [by destruct (Faker_new locale (urandom w)).1 |].
  split; [by destruct (Faker_new locale (urandom w)).1 |].
  split; [by destruct (Faker_new locale (urandom w)).1 |].
  intros ->. destruct (Faker_new_es_MX (urandom w)) as [fake ->].
  by exists fake.
Qed.

(** The record of [generate_record], field by field, and the world it
    leaves: the state of the [random] module has moved, and the clock has
    been read by the two date providers. *)
Lemma generate_record_detail fake w :
  exists person_name domain personal_number birth_date address phone_number
         mac_address ip_address iban accessed_at n0 n1 n2 n3 g k fake',
    generate_record fake w
    = (Ok ([ PStr person_name;
             PStr (str_lower (PyStr.replace PyStr.space "" person_name));
             PStr (str_lower (PyStr.replace PyStr.space "" person_name)
                   +:+ "@" +:+ domain);
             PStr personal_number; PDate birth_date;
             PStr (PyStr.replace PyStr.newline ", " address);
             PStr phone_number; PStr mac_address; PStr ip_address; PStr iban;
             PDatetime accessed_at; PInt n0; PInt n1; PInt n2; PInt n3 ],
           fake'),
       mkWorld (fs w) (dirs w) g (urandom w) (clock w) (ticks w + k)%nat
         (trace w)).
Proof.
  run_generate_record. simpl. do 15 eexists. eexists (_ + _)%nat, _.
  rewrite Nat.add_assoc. reflexivity.
Qed.

(** X4: the address of every generated record is on one line: it holds no
    newline character, whatever address the data source gave. *)
Theorem generate_record_address_one_line fake w :
  exists address record fake' w',
    generate_record fake w = (Ok (record, fake'), w')
    /\ record_field "address" record = Some (PStr address)
    /\ PyStr.contains PyStr.newline address = false.
Proof.
  destruct (generate_record_detail fake w)
    as (p0 & p1 & p2 & p3 & p4 & p5 & p6 & p7 & p8 & p9 & n0 & n1 & n2 & n3
        & g & k & fake' & E).
  exists (PyStr.replace PyStr.newline ", " p4). do 3 eexists.
  split; [exact E |]. split; [reflexivity |].
  by apply PyStrMore.contains_replace.
Qed.

(** X5: generating a record returns normally and gives one field for
    each of the 15 header names; it changes no file and no directory, logs
    nothing and leaves the entropy of the system alone.  What moves is the
    state of the [random] module and of the generator, and the clock,
    which is the same clock with readings taken. *)
Theorem generate_record_shape fake w :
  exists record fake' w',
    generate_record fake w = (Ok (record, fake'), w')
    /\ length record = length headers
    /\ fs w' = fs w /\ dirs w' = dirs w /\ urandom w' = urandom w
    /\ trace w' = trace w
    /\ clock w' = clock w /\ (ticks w <= ticks w')%nat.
Proof.
  destruct (generate_record_detail fake w)
    as (p0 & p1 & p2 & p3 & p4 & p5 & p6 & p7 & p8 & p9 & n0 & n1 & n2 & n3
        & g & k & fake' & E).
  do 3 eexists. split; [exact E |]. simpl. repeat split. lia.
Qed.

End DataSource.

(** ** More on the batch writer and the passes *)

Section WriterMore.
Context `{R : Runtime}.

(** X6: with a row count of zero or below, [write_to_csv] returns normally
    and writes the header row alone: a negative count is an empty
    [range]. *)
Theorem write_to_csv_no_rows file_path rows w :
  rows <= 0 ->
  exists w',
    write_to_csv file_path rows w = (Ok tt, w')
    /\ fs w' !! file_path = Some (csv_of [PStr <$> headers]).
Proof.
  intros Hrows.
  destruct (write_to_csv_run file_path rows w)
    as (records & w' & E & Hlen & _ & Hfs & _).
  exists w'. split; [exact E |].
  replace (Z.to_nat rows) with 0%nat in Hlen by lia.
  destruct records; [| done]. by rewrite Hfs, lookup_insert_eq.
Qed.


End WriterMore.

Section PassesMore.
Context `{R : Runtime}.

(** The tag pass, by case: a missing file, a file polars cannot read, a
    file it reads. *)
Lemma add_id_cases file_name w :
  add_id file_name w
  = match fs w !! file_name with
    | None => (Raise (FileNotFoundError file_name), w)
    | Some b =>
        match read_csv b with
        | None => (Raise (ReadError file_name), w)
        | Some df =>
            (Ok tt,
             mkWorld
               (<[file_name :=
                    write_csv
                      (set_column "unique_id"
                         (Utf8 <$> (uuid_draws (height df) (urandom w)).1)
                         df)]> (fs w))
               (dirs w) (random w) (uuid_draws (height df) (urandom w)).2
               (clock w) (ticks w)
               (trace w ++ [EvRead file_name] ++ [EvWrite file_name]
                  ++ [EvLog LogAddedUUID]))
        end
    end.
Proof.
  unfold add_id.
  destruct (fs w !! file_name) as [b |] eqn:Hb.
  - destruct (read_csv b) as [df |] eqn:Hread.
    + erewrite bind_run by (by apply (pl_read_csv_run _ _ b)).
      erewrite bind_run by apply list_comprehension_uuid4.
      unfold with_columns_series.
      rewrite decide_True
        by (right; by rewrite length_fmap, uuid_draws_length).
      erewrite bind_run by reflexivity.
      erewrite bind_run by apply df_write_csv_run.
      rewrite logging_info_run. simpl. by rewrite <- !app_assoc.
    + unfold mbind, M_bind, pl_read_csv. by rewrite Hb, Hread.
  - unfold mbind, M_bind, pl_read_csv. by rewrite Hb.
Qed.

(** X8: the tag pass raises only for a file that is missing
    ([FileNotFoundError]) or that polars cannot read, never for the shape
    of the column it adds; and when it raises it has changed nothing: no
    file written, no identifier drawn, nothing logged. *)
Theorem add_id_raises_unchanged file_name w e :
  (add_id file_name w).1 = Raise e ->
  (add_id file_name w).2 = w
  /\ ((e = FileNotFoundError file_name /\ fs w !! file_name = None)
      \/ (e = ReadError file_name
          /\ exists b, fs w !! file_name = Some b /\ read_csv b = None)).
Proof.
  rewrite add_id_cases.
  destruct (fs w !! file_name) as [b |] eqn:Hb.
  - destruct (read_csv b) as [df |] eqn:Hread; simpl; [done |].
    intros [= <-]. split; [done |]. right. eauto.
  - simpl. intros [= <-]. split; [done |]. by left.
Qed.

(** X9: on every file it reads, the tag pass writes back the frame with
    the next identifiers of the system under [unique_id], one for each
    row: the column is replaced where it stands when the file has it, and
    comes last when it has not; the other columns, their order and the
    height are kept. *)
Theorem add_id_sets_unique_id file_name w df :
  csv_file w file_name df ->
  exists df' w',
    add_id file_name w = (Ok tt, w')
    /\ fs w' = <[file_name := write_csv df']> (fs w)
    /\ get_column df' "unique_id"
       = Some (Utf8 <$> (uuid_draws (height df) (urandom w)).1)
    /\ (forall other, other <> "unique_id" ->
          get_column df' other = get_column df other)
    /\ columns df'
       = (if decide ("unique_id" ∈ columns df) then columns df
          else columns df ++ ["unique_id"])
    /\ height df' = height df.
Proof.
  intros (b & Hb & Hread & Hne & Hnd & Hall).
  rewrite add_id_cases, Hb, Hread. do 2 eexists. split; [reflexivity |].
  simpl. split; [done |].
  split; [apply PolarsFacts.get_column_set_eq |].
  split; [intros other Ho; by apply PolarsFacts.get_column_set_ne |].
  split.
  - case_decide.
    + by apply PolarsFacts.columns_set_existing.
    + by apply PolarsFacts.columns_set_fresh.
  - apply PolarsFacts.height_set_column; [done |].
    by rewrite length_fmap, uuid_draws_length.
Qed.

(** The timestamp pass in mode "next", by case: the clock is read first,
    then the day is taken off, then the file is read. *)
Lemma update_datetime_next_cases file_name w :
  update_datetime file_name "next" w
  = match sub_days (replace_microsecond (clock_now w) 0) 1 with
    | None => (Raise OverflowError, ticked w)
    | Some ts =>
        match fs w !! file_name with
        | None => (Raise (FileNotFoundError file_name), ticked w)
        | Some b =>
            match read_csv b with
            | None => (Raise (ReadError file_name), ticked w)
            | Some df =>
                (Ok tt,
                 mkWorld
                   (<[file_name :=
                        write_csv
                          (with_columns_lit df "accessed_at" (Datetime ts))]>
                      (fs w))
                   (dirs w) (random w) (urandom w) (clock w) (S (ticks w))
                   (trace w ++ [EvRead file_name] ++ [EvWrite file_name]
                      ++ [EvLog LogUpdatedTimestamp]))
            end
        end
    end.
Proof.
  unfold update_datetime. rewrite String.eqb_refl.
  erewrite bind_run by apply datetime_now_run. cbv zeta.
  destruct (sub_days (replace_microsecond (clock_now w) 0) 1) as [ts |];
    [| done].
  erewrite bind_run by reflexivity.
  destruct (fs w !! file_name) as [b |] eqn:Hb.
  - destruct (read_csv b) as [df |] eqn:Hread.
    + erewrite bind_run by (by apply (pl_read_csv_run _ _ b)).
      erewrite bind_run by apply df_write_csv_run.
      rewrite logging_info_run. simpl. by rewrite <- !app_assoc.
    + unfold mbind, M_bind, pl_read_csv. simpl. by rewrite Hb, Hread.
  - unfold mbind, M_bind, pl_read_csv. simpl. by rewrite Hb.
Qed.

(** X10: when the "next" timestamp pass raises, the clock has been read
    once and nothing else has happened: no file is changed and the trace
    is as it was; the exception is [OverflowError], [FileNotFoundError]
    for a missing file, or the error of a file polars cannot read. *)
Theorem update_datetime_next_raises file_name w e :
  (update_datetime file_name "next" w).1 = Raise e ->
  (update_datetime file_name "next" w).2 = ticked w
  /\ (e = OverflowError
      \/ (e = FileNotFoundError file_name /\ fs w !! file_name = None)
      \/ (e = ReadError file_name
          /\ exists b, fs w !! file_name = Some b /\ read_csv b = None)).
Proof.
  rewrite update_datetime_next_cases.
  destruct (sub_days _ 1) as [ts |]; simpl.
  - destruct (fs w !! file_name) as [b |] eqn:Hb.
    + destruct (read_csv b) as [df |] eqn:Hread; simpl; [done |].
      intros [= <-]. split; [done |]. right. right. eauto.
    + simpl. intros [= <-]. split; [done |]. right. by left.
  - intros [= <-]. split; [done |]. by left.
Qed.

(** X11: on the first day [datetime] can hold, 0001-01-01, the "next"
    timestamp pass raises [OverflowError], for the day before is out of
    range; it does so before it looks at the file, which may even be
    missing. *)
Theorem update_datetime_next_day_one file_name w :
  dt_date (clock_now w) = mkdate 1 1 1 ->
  update_datetime file_name "next" w = (Raise OverflowError, ticked w).
Proof.
  intros Hd. rewrite update_datetime_next_cases.
  unfold sub_days. simpl dt_date. by rewrite Hd.
Qed.

(** X21: the timestamp pass in mode "next", on the frame polars read.
    On a file that reads as a frame [df], the pass computes one timestamp
    [ts], the clock's reading with its microseconds set to zero, minus one
    day (the same second of the day before), and writes the frame it read
    with [ts] in column [accessed_at] of every row: the height, the order
    of the columns and the values read in every other column are those of
    [df].  This is about values as polars read them; how [write_csv]
    spells them is the runtime's. *)
Theorem update_datetime_next file_name w df :
  csv_file w file_name df ->
  valid_datetime (clock_now w) -> 1 < toordinal (dt_date (clock_now w)) ->
  exists ts df' w',
    update_datetime file_name "next" w = (Ok tt, w')
    /\ sub_days (replace_microsecond (clock_now w) 0) 1 = Some ts
    /\ microsecond ts = 0
    /\ seconds_of ts = seconds_of (clock_now w) - 86400
    /\ fs w' = <[file_name := write_csv df']> (fs w)
    /\ get_column df' "accessed_at"
       = Some (replicate (height df) (Datetime ts))
    /\ height df' = height df
    /\ (forall other, other <> "accessed_at" ->
          get_column df' other = get_column df other)
    /\ columns df'
       = if decide ("accessed_at" ∈ columns df) then columns df
         else columns df ++ ["accessed_at"].
Proof.
  intros Hfile Hvalid Hord.
  destruct (update_datetime_run file_name w df Hfile Hvalid Hord)
    as (ts & Hts & Hus & Hsec & Hrun).
  destruct Hfile as (b & Hb & Hread & Hne & _).
  destruct (with_columns_lit_spec df "accessed_at" (Datetime ts) Hne)
    as (Hcol & Hheight & Hothers & Hcolumns).
  exists ts, (with_columns_lit df "accessed_at" (Datetime ts)).
  eexists. split; [exact Hrun |]. done.
Qed.

End PassesMore.

(** ** Passes one after the other *)

Section Chains.
Context `{R : Runtime} `{!CsvLaws R}.

(** What a pass wrote reads as a frame of the same columns and height. *)
Lemma rewritten_file_reads (df : DataFrame) w file_path :
  fs w !! file_path = Some (write_csv df) -> wf df ->
  exists df', csv_file w file_path df'
              /\ columns df' = columns df /\ height df' = height df.
Proof.
  intros Hfs Hwf.
  destruct (read_csv_write_csv df Hwf) as (df' & Hread & Hc & Hh).
  exists df'. split; [| done].
  exists (write_csv df). split; [exact Hfs |]. split; [exact Hread |].
  by eapply read_csv_wf.
Qed.

(** The frame the tag pass writes is well formed, and so is the frame of
    the timestamp pass. *)
Lemma tagged_frame_wf (df : DataFrame) (ids : list string) :
  wf df -> length ids = height df ->
  wf (set_column "unique_id" (Utf8 <$> ids) df)
  /\ columns (set_column "unique_id" (Utf8 <$> ids) df)
     = (if decide ("unique_id" ∈ columns df) then columns df
        else columns df ++ ["unique_id"])
  /\ height (set_column "unique_id" (Utf8 <$> ids) df) = height df.
Proof.
  intros Hwf Hlen.
  assert (Hl : length (Utf8 <$> ids) = height df) by (by rewrite length_fmap).
  split; [by apply PolarsFacts.wf_set_column |]. split.
  - case_decide.
    + by apply PolarsFacts.columns_set_existing.
    + by apply PolarsFacts.columns_set_fresh.
  - apply PolarsFacts.height_set_column; [apply Hwf | done].
Qed.

Lemma stamped_frame_wf (df : DataFrame) (v : value) :
  wf df ->
  wf (with_columns_lit df "accessed_at" v)
  /\ columns (with_columns_lit df "accessed_at" v)
     = (if decide ("accessed_at" ∈ columns df) then columns df
        else columns df ++ ["accessed_at"])
  /\ height (with_columns_lit df "accessed_at" v) = height df.
Proof.
  intros Hwf.
  destruct (with_columns_lit_spec df "accessed_at" v) as (_ & Hh & _ & Hc);
    [apply Hwf |].
  split; [| done]. unfold with_columns_lit.
  rewrite decide_False by apply Hwf.
  apply PolarsFacts.wf_set_column; [done | apply length_replicate].
Qed.

(** One tag pass on a readable file, and the file it leaves. *)
Lemma add_id_step file_name w df :
  csv_file w file_name df ->
  exists df' w',
    add_id file_name w = (Ok tt, w')
    /\ csv_file w' file_name df'
    /\ columns df'
       = (if decide ("unique_id" ∈ columns df) then columns df
          else columns df ++ ["unique_id"])
    /\ height df' = height df
    /\ clock w' = clock w /\ ticks w' = ticks w
    /\ urandom w' = (uuid_draws (height df) (urandom w)).2.
Proof.
  intros (b & Hb & Hread & Hwf).
  pose proof (add_id_cases file_name w) as E. rewrite Hb, Hread in E.
  destruct (tagged_frame_wf df (uuid_draws (height df) (urandom w)).1 Hwf)
    as (Hwf' & Hc & Hh); [apply uuid_draws_length |].
  match type of E with _ = (_, ?w1) => set (w' := w1) in * end.
  destruct (rewritten_file_reads
              (set_column "unique_id"
                 (Utf8 <$> (uuid_draws (height df) (urandom w)).1) df)
              w' file_name) as (df' & Hfile & Hc' & Hh');
    [unfold w'; cbn [fs]; by rewrite lookup_insert_eq | exact Hwf' |].
  exists df', w'. split; [exact E |]. split; [exact Hfile |].
  split; [congruence |]. split; [congruence |]. done.
Qed.




End Chains.

(** ** The order of the two passes *)

Module PolarsMore.

Lemma set_column_comm (df : DataFrame) a ca b cb :
  a <> b -> a ∈ columns df ->
  set_column a ca (set_column b cb df) = set_column b cb (set_column a ca df).
Proof.
  intros Hab. induction df as [| [n c] df IH]; simpl; intros Hin.
  - inversion Hin.
  - repeat (case_decide; simpl); subst; try congruence.
    f_equal. apply IH. unfold columns in Hin. simpl in Hin.
    apply elem_of_cons in Hin as [-> | Hin]; [done | exact Hin].
Qed.

End PolarsMore.

(** X15: on a frame that has the column [accessed_at], the two column
    updates of the passes commute: adding the identifiers to the stamped
    frame gives the frame that stamping the tagged frame gives, and
    neither raises. *)
Theorem tag_and_timestamp_commute (df : DataFrame) (ids : list value)
    (v : value) :
  "accessed_at" ∈ columns df -> length ids = height df ->
  exists tagged,
    with_columns_series df "unique_id" ids = Some tagged
    /\ with_columns_series (with_columns_lit df "accessed_at" v) "unique_id"
         ids
       = Some (with_columns_lit tagged "accessed_at" v).
Proof.
  intros Hin Hlen.
  assert (Hne : df <> []) by (intros ->; inversion Hin).
  destruct (with_columns_lit_spec df "accessed_at" v Hne) as (_ & Hh & _).
  exists (set_column "unique_id" ids df). unfold with_columns_series.
  rewrite !decide_True by (right; congruence). split; [done |]. f_equal.
  unfold with_columns_lit. rewrite decide_False by done.
  rewrite decide_False by (destruct df as [| [n c] df']; [done |]; simpl;
                           case_decide; done).
  rewrite PolarsFacts.height_set_column by done.
  symmetry. by apply PolarsMore.set_column_comm.
Qed.

(** ** The run as a whole *)

Section WholeRun.
Context `{R : Runtime}.

Lemma writes_only_bind {A B} path (m : M A) (f : A -> M B) :
  writes_only path m -> (forall a, writes_only path (f a)) ->
  writes_only path (m ≫= f).
Proof.
  intros Hm Hf w other Ho. unfold mbind, M_bind.
  specialize (Hm w other Ho).
  destruct (m w) as [[a | e] w1]; simpl in *; [| done].
  by rewrite (Hf a w1 other Ho).
Qed.

Lemma writes_only_same_files {A} path (m : M A) :
  (forall w, fs (m w).2 = fs w) -> writes_only path m.
Proof. intros H w other _. by rewrite H. Qed.

Lemma date_today_writes_only path : writes_only path date_today.
Proof. by apply writes_only_same_files. Qed.

Lemma logging_info_writes_only path m : writes_only path (logging_info m).
Proof. by apply writes_only_same_files. Qed.

Lemma create_directories_writes_only path file_path :
  writes_only path (create_directories_if_not_exist file_path).
Proof.
  apply writes_only_same_files. intros w.
  destruct (create_directories_run file_path w) as (w' & E & (Hfs & _) & _).
  by rewrite E.
Qed.

Lemma main_decide_writes_only path : writes_only path main_decide.
Proof.
  apply writes_only_same_files. intros w. unfold main_decide.
  erewrite bind_run by apply date_today_run.
  destruct (String.eqb _ _);
    erewrite bind_run by (apply random_randint_run; lia); done.
Qed.

Lemma write_to_csv_writes_only path rows :
  writes_only path (write_to_csv path rows).
Proof.
  intros w other Ho.
  destruct (write_to_csv_run path rows w) as (recs & w' & E & _ & _ & Hfs & _).
  rewrite E. simpl. by rewrite Hfs, lookup_insert_ne.
Qed.

Lemma add_id_writes_only path : writes_only path (add_id path).
Proof.
  intros w other Ho. rewrite add_id_cases.
  destruct (fs w !! path) as [b |]; [| done].
  destruct (read_csv b) as [df |]; [| done].
  simpl. by rewrite lookup_insert_ne.
Qed.

Lemma update_datetime_writes_only path run :
  writes_only path (update_datetime path run).
Proof.
  intros w other Ho.
  destruct (String.eqb_spec run "next") as [-> | Hrun].
  - rewrite update_datetime_next_cases.
    destruct (sub_days _ 1) as [ts |]; [| done].
    destruct (fs w !! path) as [b |]; [| done].
    destruct (read_csv b) as [df |]; [| done].
    simpl. by rewrite lookup_insert_ne.
  - by rewrite update_datetime_skip.
Qed.

Lemma main_steps_writes_only path records run_type :
  writes_only path (main_steps path records run_type).
Proof.
  unfold main_steps.
  apply writes_only_bind; [apply write_to_csv_writes_only |]. intros _.
  apply writes_only_bind; [apply add_id_writes_only |]. intros _.
  apply update_datetime_writes_only.
Qed.

(** X16: a whole run changes no file but the batch of the day, whether it
    ends normally or raises on the way: every other path holds after the
    run what it held before.  The day is the one the clock gives at its
    second reading, when the script builds the path. *)
Theorem main_writes_one_file w other :
  other <> output_path (dt_date (clock w (S (ticks w)))) ->
  fs (main w).2 !! other = fs w !! other.
Proof.
  intros Ho. unfold main.
  erewrite bind_run by apply date_today_run.
  erewrite bind_run by apply logging_info_run.
  erewrite bind_run by apply date_today_run.
  cbv zeta.
  match goal with |- fs (?m ?w1).2 !! _ = _ =>
    assert (Hm : writes_only
                   (output_path (dt_date (clock w (S (ticks w))))) m)
  end.
  { apply writes_only_bind; [apply create_directories_writes_only |].
    intros _.
    apply writes_only_bind; [apply main_decide_writes_only |].
    intros [records run_type].
    apply writes_only_bind; [apply main_steps_writes_only |]. intros _.
    apply writes_only_bind; [apply date_today_writes_only |]. intros today.
    apply logging_info_writes_only. }
  by rewrite (Hm _ other Ho).
Qed.

End WholeRun.

(** X17: the batches of two different days go to two different paths:
    the path of a batch determines its date. *)
Theorem output_path_inj (d1 d2 : date) :
  valid_date d1 -> valid_date d2 -> output_path d1 = output_path d2 ->
  d1 = d2.
Proof.
  intros H1 H2 E. apply PyDatetimeSpec.isoformat_inj; try done.
  unfold output_path in E. apply String.app_inj in E.
  unfold isoformat, PyStr.pad4, PyStr.pad2 in *.
  simpl in E. injection E as E3 E2 E1 E0 M1 M0 D1 D0.
  simpl. congruence.
Qed.

Section FirstRuns.
Context `{R : Runtime} `{!CsvShapeLaws R}.

(** X18: in any mode but "next", the three steps on a batch of at most
    [INFER_SCHEMA_LENGTH] rows succeed, and the timestamp pass changes no
    file: the batch is left as the tag pass wrote it.  That is the frame
    polars read from the file the writer made, of the 15 header columns
    and one row for each record, followed by the column [unique_id] of
    the identifiers drawn then; the timestamps polars read from the
    records are in it as they were read. *)
Theorem main_steps_keeps_timestamps output_file records run_type w :
  0 <= records <= Z.of_nat INFER_SCHEMA_LENGTH -> run_type <> "next" ->
  exists w1 w2 w' df0 ids,
    write_to_csv output_file records w = (Ok tt, w1)
    /\ csv_file w1 output_file df0
    /\ columns df0 = headers /\ height df0 = Z.to_nat records
    /\ add_id output_file w1 = (Ok tt, w2)
    /\ ids = (uuid_draws (height df0) (urandom w1)).1
    /\ fs w2 !! output_file
       = Some (write_csv (df0 ++ [("unique_id", Utf8 <$> ids)]))
    /\ main_steps output_file records run_type w = (Ok tt, w')
    /\ fs w' = fs w2
    /\ trace w' = trace w2 ++ [EvLog LogNoTimestampUpdate].
Proof.
  intros Hrec Hrun. unfold main_steps.
  destruct (write_to_csv_run output_file records w)
    as (recs & w1 & E1 & Hlen1 & Hall1 & Hfs1 & Hc1 & Ht1).
  erewrite bind_run by exact E1.
  destruct (written_file_reads recs w1 output_file)
    as (df0 & Hfile0 & Hcols0 & Hh0);
    [by rewrite Hfs1, lookup_insert_eq | exact Hall1 | lia |].
  pose proof (add_id_run output_file w1 df0 Hfile0) as E2.
  erewrite bind_run by exact E2.
  rewrite update_datetime_skip by done.
  assert (Hfresh : "unique_id" ∉ columns df0)
    by (rewrite Hcols0; apply unique_id_fresh).
  rewrite PolarsFacts.set_column_fresh in E2 |- * by done.
  exists w1. eexists _, _.
  exists df0, (uuid_draws (height df0) (urandom w1)).1.
  split; [exact E1 |]. split; [exact Hfile0 |]. split; [exact Hcols0 |].
  split; [lia |]. split; [exact E2 |]. split; [reflexivity |].
  cbn [fs trace]. split; [by rewrite lookup_insert_eq |].
  split; [reflexivity |]. by split.
Qed.

End FirstRuns.

(** ** The further properties at work on the simple runtime *)

Module MoreExamples.
Import SimpleRuntime SimpleRuntimeLaws Inputs MoreInputs.

Lemma tagged_file : csv_file tagged_world "tagged.csv" tagged_frame.
Proof.
  exists tagged_frame. split; [by vm_compute |]. split; [by vm_compute |].
  apply (bool_decide_unpack _). by vm_compute.
Defined.

(** The directories of a path three levels down, made in one call. *)
Example nested_directories :
  dirs (create_directories_if_not_exist "a/b/c/d.csv" world0).2
  = {[ "a"; "a/b"; "a/b/c" ]}.
Proof. apply (bool_decide_unpack _). by vm_compute. Qed.

Lemma create_directories_ensures_witness :
  exists w',
    create_directories_if_not_exist "a/b/c.csv" world0 = (Ok tt, w')
    /\ fs w' = fs world0
    /\ "a/b" ∈ dirs w'
    /\ (dirname "a/b" = "" \/ dirname "a/b" = "a/b"
        \/ dirname "a/b" ∈ dirs w')
    /\ (forall d, d ∈ dirs w' <-> d ∈ dirs world0 \/ d ∈ ["a"; "a/b"])
    /\ trace w'
       = trace world0 ++ [ EvMakedirs "a/b";
                           EvLog (LogCreatedDirectory "a/b") ].
Proof.
  apply (proj2 (create_directories_ensures "a/b/c.csv" world0)).
  split; [by vm_compute |]. split; [by vm_compute |].
  intros d _. apply lookup_empty.
Defined.

Lemma write_to_csv_no_rows_witness :
  -5 <= 0
  /\ exists w',
       write_to_csv batch_path (-5) world0 = (Ok tt, w')
       /\ fs w' !! batch_path = Some (csv_of [PStr <$> headers]).
Proof.
  split; [lia |]. apply (write_to_csv_no_rows batch_path (-5) world0). lia.
Defined.

Lemma add_id_raises_unchanged_witness :
  (add_id "broken.csv" broken_world).2 = broken_world
  /\ ((ReadError "broken.csv" = FileNotFoundError "broken.csv"
       /\ fs broken_world !! "broken.csv" = None)
      \/ (ReadError "broken.csv" = ReadError "broken.csv"
          /\ exists b, fs broken_world !! "broken.csv" = Some b
                       /\ read_csv b = None)).
Proof.
  apply (add_id_raises_unchanged "broken.csv" broken_world
           (ReadError "broken.csv")).
  by vm_compute.
Defined.

Lemma add_id_sets_unique_id_witness :
  exists df' w',
    add_id "tagged.csv" tagged_world = (Ok tt, w')
    /\ fs w' = <["tagged.csv" := write_csv df']> (fs tagged_world)
    /\ get_column df' "unique_id"
       = Some (Utf8 <$> (uuid_draws (height tagged_frame)
                           (urandom tagged_world)).1)
    /\ (forall other, other <> "unique_id" ->
          get_column df' other = get_column tagged_frame other)
    /\ columns df'
       = (if decide ("unique_id" ∈ columns tagged_frame)
          then columns tagged_frame
          else columns tagged_frame ++ ["unique_id"])
    /\ height df' = height tagged_frame.
Proof.
  exact (add_id_sets_unique_id "tagged.csv" tagged_world tagged_frame
           tagged_file).
Defined.

Lemma update_datetime_next_raises_witness :
  (update_datetime "missing.csv" "next" world0).2 = ticked world0
  /\ (FileNotFoundError "missing.csv" = OverflowError
      \/ (FileNotFoundError "missing.csv" = FileNotFoundError "missing.csv"
          /\ fs world0 !! "missing.csv" = None)
      \/ (FileNotFoundError "missing.csv" = ReadError "missing.csv"
          /\ exists b, fs world0 !! "missing.csv" = Some b
                       /\ read_csv b = None)).
Proof.
  apply (update_datetime_next_raises "missing.csv" world0
           (FileNotFoundError "missing.csv")).
  by vm_compute.
Defined.

Lemma update_datetime_next_day_one_witness :
  update_datetime "tagged.csv" "next" day_one_world
  = (Raise OverflowError, ticked day_one_world).
Proof.
  apply (update_datetime_next_day_one "tagged.csv" day_one_world).
  reflexivity.
Defined.




Lemma tag_and_timestamp_commute_witness :
  exists tagged,
    with_columns_series batch_frame "unique_id" [Utf8 "a"; Utf8 "b"]
    = Some tagged
    /\ with_columns_series (with_columns_lit batch_frame "accessed_at" Null)
         "unique_id" [Utf8 "a"; Utf8 "b"]
       = Some (with_columns_lit tagged "accessed_at" Null).
Proof.
  apply (tag_and_timestamp_commute batch_frame [Utf8 "a"; Utf8 "b"] Null).
  - apply (bool_decide_unpack _). by vm_compute.
  - reflexivity.
Defined.

Lemma main_writes_one_file_witness :
  fs (main tagged_world).2 !! "tagged.csv" = fs tagged_world !! "tagged.csv".
Proof.
  apply (main_writes_one_file tagged_world "tagged.csv"). by vm_compute.
Defined.

Lemma output_path_inj_witness : FIRST_DATE = FIRST_DATE.
Proof.
  apply (output_path_inj FIRST_DATE FIRST_DATE).
  - repeat split; vm_compute; congruence.
  - repeat split; vm_compute; congruence.
  - reflexivity.
Defined.

Lemma update_datetime_next_witness :
  exists ts df' w',
    update_datetime batch_path "next" batch_world = (Ok tt, w')
    /\ sub_days (replace_microsecond (clock_now batch_world) 0) 1 = Some ts
    /\ microsecond ts = 0
    /\ seconds_of ts = seconds_of (clock_now batch_world) - 86400
    /\ fs w' = <[batch_path := write_csv df']> (fs batch_world)
    /\ get_column df' "accessed_at"
       = Some (replicate (height batch_frame) (Datetime ts))
    /\ height df' = height batch_frame
    /\ (forall other, other <> "accessed_at" ->
          get_column df' other = get_column batch_frame other)
    /\ columns df'
       = if decide ("accessed_at" ∈ columns batch_frame)
         then columns batch_frame
         else columns batch_frame ++ ["accessed_at"].
Proof.
  apply (update_datetime_next batch_path batch_world batch_frame).
  - exact Examples.batch_file.
  - apply Examples.clock0_valid. by vm_compute.
  - apply Examples.clock0_ordinal. by vm_compute.
Defined.

Lemma main_steps_keeps_timestamps_witness :
  exists w1 w2 w' df0 ids,
    write_to_csv batch_path 2 world0 = (Ok tt, w1)
    /\ csv_file w1 batch_path df0
    /\ columns df0 = headers /\ height df0 = Z.to_nat 2
    /\ add_id batch_path w1 = (Ok tt, w2)
    /\ ids = (uuid_draws (height df0) (urandom w1)).1
    /\ fs w2 !! batch_path
       = Some (write_csv (df0 ++ [("unique_id", Utf8 <$> ids)]))
    /\ main_steps batch_path 2 "first" world0 = (Ok tt, w')
    /\ fs w' = fs w2
    /\ trace w' = trace w2 ++ [EvLog LogNoTimestampUpdate].
Proof.
  apply (main_steps_keeps_timestamps (R := runtime) batch_path 2 "first"
           world0).
  - unfold INFER_SCHEMA_LENGTH. lia.
  - by vm_compute.
Defined.

End MoreExamples.

(** ** What a whole run leaves behind *)

Section RunOutcome.
Context `{R : Runtime}.

Lemma bind_ok_inv {A B} (m : M A) (f : A -> M B) w b w' :
  (m ≫= f) w = (Ok b, w') ->
  exists a w1, m w = (Ok a, w1) /\ f a w1 = (Ok b, w').
Proof.
  unfold mbind, M_bind. destruct (m w) as [[a | e] w1]; [eauto | done].
Qed.

Lemma keeps_file_bind {A B} path (m : M A) (f : A -> M B) :
  keeps_file path m -> (forall a, keeps_file path (f a)) ->
  keeps_file path (m ≫= f).
Proof.
  intros Hm Hf w Hw. unfold mbind, M_bind. specialize (Hm w Hw).
  destruct (m w) as [[a | e] w1]; simpl in *; [| done]. by apply Hf.
Qed.

Lemma keeps_file_same_files {A} path (m : M A) :
  (forall w, fs (m w).2 = fs w) -> keeps_file path m.
Proof. intros H w Hw. by rewrite H. Qed.

Lemma add_id_keeps_file path : keeps_file path (add_id path).
Proof.
  intros w Hw. rewrite add_id_cases.
  destruct (fs w !! path) as [b |] eqn:Hb; [| by destruct Hw].
  destruct (read_csv b) as [df |]; simpl; [| by rewrite Hb].
  rewrite lookup_insert_eq. eauto.
Qed.

Lemma update_datetime_keeps_file path run :
  keeps_file path (update_datetime path run).
Proof.
  intros w Hw.
  destruct (String.eqb_spec run "next") as [-> | Hrun].
  - rewrite update_datetime_next_cases.
    destruct (sub_days _ 1) as [ts |]; [| done].
    destruct (fs w !! path) as [b |] eqn:Hb; [| by destruct Hw].
    destruct (read_csv b) as [df |]; simpl; [| by rewrite Hb].
    rewrite lookup_insert_eq. eauto.
  - by rewrite update_datetime_skip.
Qed.

Lemma main_decide_run w :
  exists records run_type w',
    main_decide w = (Ok (records, run_type), w') /\ fs w' = fs w.
Proof.
  unfold main_decide. erewrite bind_run by apply date_today_run.
  destruct (String.eqb _ _);
    erewrite bind_run by (apply random_randint_run; lia);
    by do 3 eexists.
Qed.

Lemma bind_leaves_file {A B} path (m : M A) (f : A -> M B) w :
  is_Some (fs (m w).2 !! path) -> (forall a, keeps_file path (f a)) ->
  is_Some (fs ((m ≫= f) w).2 !! path).
Proof.
  intros Hm Hf. unfold mbind, M_bind.
  destruct (m w) as [[a | e] w1]; simpl in *; [| done]. by apply Hf.
Qed.

Lemma main_steps_leaves_file path records run_type w :
  is_Some (fs (main_steps path records run_type w).2 !! path).
Proof.
  unfold main_steps.
  destruct (write_to_csv_run path records w)
    as (recs & w1 & E & _ & _ & Hfs & _).
  erewrite bind_run by exact E.
  assert (H1 : is_Some (fs w1 !! path))
    by (rewrite Hfs, lookup_insert_eq; eauto).
  revert w1 H1 E Hfs. intros w1 H1 _ _. revert w1 H1.
  change (keeps_file path
            (add_id path ≫= fun _ => update_datetime path run_type)).
  apply keeps_file_bind; [apply add_id_keeps_file |]. intros _.
  apply update_datetime_keeps_file.
Qed.

(** X19: when a whole run is over, the batch of the day is there: the
    file at the path of the day exists, even if one of the two passes
    raised on the way ([write_to_csv] has written it by then, and a pass
    that raises leaves it as it is). *)
Theorem main_leaves_batch_file w :
  is_Some (fs (main w).2 !! output_path (dt_date (clock w (S (ticks w))))).
Proof.
  unfold main.
  erewrite bind_run by apply date_today_run.
  erewrite bind_run by apply logging_info_run.
  erewrite bind_run by apply date_today_run.
  cbv zeta. fold (output_path (dt_date (clock w (S (ticks w))))).
  set (path := output_path (dt_date (clock w (S (ticks w))))).
  match goal with |- is_Some (fs ((_ ≫= _) ?w0).2 !! _) =>
    destruct (create_directories_run path w0) as (w1 & E1 & _)
  end.
  erewrite bind_run by exact E1.
  destruct (main_decide_run w1) as (records & run_type & w2 & E2 & _).
  erewrite bind_run by exact E2.
  apply bind_leaves_file; [apply main_steps_leaves_file |]. intros _.
  apply keeps_file_bind; [by apply keeps_file_same_files |]. intros today.
  by apply keeps_file_same_files.
Qed.

Lemma appends_bind {A B} (m : M A) (f : A -> M B) :
  appends m -> (forall a, appends (f a)) -> appends (m ≫= f).
Proof.
  intros Hm Hf w. unfold mbind, M_bind. destruct (Hm w) as [t Ht].
  destruct (m w) as [[a | e] w1]; simpl in *; [| eauto].
  destruct (Hf a w1) as [t' Ht']. exists (t ++ t').
  by rewrite Ht', Ht, app_assoc.
Qed.

Lemma appends_same_trace {A} (m : M A) :
  (forall w, trace (m w).2 = trace w) -> appends m.
Proof. intros H w. exists []. by rewrite H, app_nil_r. Qed.

Lemma appends_logging_info m : appends (logging_info m).
Proof. intros w. by exists [EvLog m]. Qed.

Lemma appends_for_range {S} n (body : S -> M S) :
  (forall s, appends (body s)) -> forall s, appends (for_range n body s).
Proof.
  intros Hbody. induction n as [| n IH]; intros s; simpl.
  - by apply appends_same_trace.
  - apply appends_bind; [apply Hbody | apply IH].
Qed.

Lemma appends_generate_record fake : appends (generate_record fake).
Proof.
  apply appends_same_trace. intros w.
  destruct (generate_record_detail fake w)
    as (p0 & p1 & p2 & p3 & p4 & p5 & p6 & p7 & p8 & p9 & n0 & n1 & n2 & n3
        & g & k & fake' & E).
  by rewrite E.
Qed.

Lemma appends_create_directories file_path :
  appends (create_directories_if_not_exist file_path).
Proof.
  intros w. rewrite create_directories_cases. cbv zeta.
  destruct (_ || _); simpl; [exists []; by rewrite app_nil_r | eauto].
Qed.

Lemma appends_write_to_csv file_path rows :
  appends (write_to_csv file_path rows).
Proof.
  unfold write_to_csv.
  apply appends_bind; [apply appends_create_directories |]. intros _.
  apply appends_bind.
  { intros w. rewrite create_data_cases. cbv zeta.
    destruct (Faker_new _ _).1; simpl; eauto. }
  intros fake.
  apply appends_bind; [intros w; rewrite open_w_run; simpl; eauto |].
  intros _.
  apply appends_bind; [by apply appends_same_trace |]. intros _.
  apply appends_bind; [| intros _; apply appends_logging_info].
  apply appends_for_range. intros fake0.
  apply appends_bind; [apply appends_generate_record |].
  intros [record fake1].
  apply appends_bind; [by apply appends_same_trace |]. intros _.
  by apply appends_same_trace.
Qed.

Lemma appends_add_id path : appends (add_id path).
Proof.
  intros w. rewrite add_id_cases.
  destruct (fs w !! path) as [b |]; [| exists []; by rewrite app_nil_r].
  destruct (read_csv b) as [df |]; simpl;
    [eauto | exists []; by rewrite app_nil_r].
Qed.

Lemma appends_update_datetime path run : appends (update_datetime path run).
Proof.
  intros w. destruct (String.eqb_spec run "next") as [-> | Hrun].
  - rewrite update_datetime_next_cases.
    destruct (sub_days _ 1) as [ts |];
      [| exists []; by rewrite app_nil_r].
    destruct (fs w !! path) as [b |]; [| exists []; by rewrite app_nil_r].
    destruct (read_csv b) as [df |]; simpl;
      [eauto | exists []; by rewrite app_nil_r].
  - rewrite update_datetime_skip by done. simpl. eauto.
Qed.

Lemma appends_main_steps path records run_type :
  appends (main_steps path records run_type).
Proof.
  unfold main_steps.
  apply appends_bind; [apply appends_write_to_csv |]. intros _.
  apply appends_bind; [apply appends_add_id |]. intros _.
  apply appends_update_datetime.
Qed.

Lemma appends_main_decide : appends main_decide.
Proof.
  apply appends_same_trace. intros w. unfold main_decide.
  erewrite bind_run by apply date_today_run.
  destruct (String.eqb _ _);
    erewrite bind_run by (apply random_randint_run; lia); done.
Qed.

(** X20: a whole run only adds to the trace, and what it adds begins
    with the record of the start, dated by the first reading of the
    clock; when the run ends normally, the last thing it adds is the
    record of the end. *)
Theorem main_log w :
  exists t,
    trace (main w).2
    = trace w ++ EvLog (LogStarted (dt_date (clock_now w))) :: t
    /\ ((main w).1 = Ok tt ->
          exists t' today, t = t' ++ [EvLog (LogFinished today)]).
Proof.
  unfold main.
  erewrite bind_run by apply date_today_run.
  erewrite bind_run by apply logging_info_run.
  erewrite bind_run by apply date_today_run.
  cbv zeta. cbn [fs dirs random urandom clock ticks trace].
  match goal with |- context [(create_directories_if_not_exist ?p ≫= _) ?w0] =>
    set (path := p); set (w2 := w0)
  end.
  assert (Htr2 : trace w2
                 = trace w ++ [EvLog (LogStarted (dt_date (clock_now w)))])
    by done.
  clearbody w2.
  match goal with |- context [(?m w2)] => set (rest := m) end.
  assert (Hrest : appends rest).
  { apply appends_bind; [apply appends_create_directories |]. intros _.
    apply appends_bind; [apply appends_main_decide |]. intros [r rt].
    apply appends_bind; [apply appends_main_steps |]. intros _.
    apply appends_bind; [by apply appends_same_trace |]. intros today.
    apply appends_logging_info. }
  destruct (Hrest w2) as [t Ht]. exists t.
  split; [rewrite Ht, Htr2; symmetry; exact (app_assoc _ [_] _) |].
  intros Hok. destruct (rest w2) as [res w'] eqn:E. simpl in *. subst res.
  unfold rest in E.
  apply bind_ok_inv in E as ([] & w3 & E3 & E).
  apply bind_ok_inv in E as ([r rt] & w4 & E4 & E).
  apply bind_ok_inv in E as ([] & w5 & E5 & E).
  apply bind_ok_inv in E as (today & w6 & E6 & E).
  rewrite logging_info_run in E. injection E as <-.
  rewrite date_today_run in E6. injection E6 as _ <-.
  destruct (appends_create_directories path w2) as [t3 H3].
  rewrite E3 in H3.
  destruct (appends_main_decide w3) as [t4 H4]. rewrite E4 in H4.
  destruct (appends_main_steps path r rt w4) as [t5 H5]. rewrite E5 in H5.
  simpl in *. exists (t3 ++ t4 ++ t5), today.
  rewrite H5, H4, H3 in Ht. rewrite <- !app_assoc in Ht.
  apply app_inv_head in Ht. rewrite <- Ht. by rewrite <- !app_assoc.
Qed.

End RunOutcome.

(** ** The passes and the text of a file *)

Module TextExamples.
Import TextRuntime TextInputs.

(** The three steps in mode "next" on the text runtime, one record: the
    file as it is left.  The timestamp is that of the third reading of
    the clock, for the record's two dates took the first two. *)
Example main_steps_text :
  let run := main_steps "data/batch.csv" 1 "next" text_world0 in
  run.1 = Ok tt
  /\ fs run.2 !! "data/batch.csv"
     = Some
         [ [ "person_name"; "user_name"; "email"; "personal_number";
             "birth_date"; "address"; "phone"; "mac_address"; "ip_address";
             "iban"; "accessed_at"; "session_duration"; "download_speed";
             "upload_speed"; "consumed_traffic"; "unique_id" ];
           [ "Ana Sofia Lopez"; "anasofialopez"; "anasofialopez@gmail.com";
             "5120152553"; "1990-01-01";
             "Calle Norte 12, 01000 Ciudad de Mexico"; "55 1234 5678";
             "00:1b:44:11:3a:b7"; "192.168.1.10"; "MX12345678901234567890";
             "2025-09-22T10:30:17.000000"; "42"; "781"; "629"; "676253";
             "3f2b8c1e-7a4d-4e5f-9b6a-000000000001" ] ].
Proof. split; by vm_compute. Qed.

End TextExamples.

(** X22: the tag pass does not keep the text of a file.  The writer
    writes a record whose personal number is 05120152553; the tag pass,
    run next as in the script, returns normally and writes it back as
    5120152553, for polars took the column of digits for integers.  Every
    other field of the record is spelled as before, and the identifier is
    added. *)
Theorem add_id_rewrites_cells :
  let path := "data/batch.csv" in
  let w1 :=
    (write_to_csv (R := TextRuntime.runtime) path 1 TextInputs.text_world0).2 in
  let run := add_id (R := TextRuntime.runtime) path w1 in
  exists b1 b2,
    fs w1 !! path = Some b1
    /\ run.1 = Ok tt
    /\ fs run.2 !! path = Some b2
    /\ TextRuntime.csv_field b1 "personal_number" 0 = Some "05120152553"
    /\ TextRuntime.csv_field b2 "personal_number" 0 = Some "5120152553"
    /\ Forall (fun name =>
                 name = "personal_number"
                 \/ TextRuntime.csv_field b2 name 0
                    = TextRuntime.csv_field b1 name 0) headers
    /\ TextRuntime.csv_field b2 "unique_id" 0
       = Some "3f2b8c1e-7a4d-4e5f-9b6a-000000000001".
Proof.
  cbv zeta. eexists _, _.
  split; [by vm_compute |]. split; [by vm_compute |].
  split; [by vm_compute |]. split; [by vm_compute |].
  split; [by vm_compute |].
  split; [| by vm_compute].
  apply (bool_decide_unpack _). by vm_compute.
Qed.
